(** * farcaster-digest: the aggregation pipeline of [src/index.js]

    A shallow embedding of the digest server's core: author-name
    extraction, engagement scoring, the per-channel fetch loop with its
    cool-down delays, the 48 hour window filter, the ranking, and the
    single-slot cache of the [GET /] handler. Of the page that the handler
    sends, the embedding keeps the digest it shows, the "last updated"
    figure and the escaped cast texts.

    Conventions of the embedding.
    - A JavaScript number that the code only uses as a counter, an
      identifier or a millisecond instant is a [Z]; [NaN] is [None] where a
      computation can produce it.
    - [undefined] (a missing property, or optional chaining through a
      missing object) is [None].
    - Effects (provider calls, [setTimeout] delays, the clock, exceptions)
      are threaded through a state-and-exception monad over a [World].
      Console output is not part of the model.
    - Globals of the module ([CHANNEL_USERS], [neynarClient], [cache]) are
      explicit arguments. *)

From Stdlib Require Import ZArith String Ascii List Bool Lia.
From Stdlib Require Import DecimalString Permutation Sorted.
From Stdlib Require DecimalPos.
Import ListNotations.

Local Open Scope string_scope.
Local Open Scope list_scope.
Local Open Scope Z_scope.

(** * JavaScript operators used by the source *)

(** Truthiness of the value types the source tests with [||], [!] and [&&]. *)
Class Truthy (A : Type) := truthy : A -> bool.

#[global] Instance truthy_number : Truthy Z := fun z => negb (z =? 0).
#[global] Instance truthy_string : Truthy string := fun s => negb (s =? "")%string.
(** Arrays are objects: always truthy, also when empty. *)
#[global] Instance truthy_array {A} : Truthy (list A) := fun _ => true.
(** [undefined] is falsy; a present value is as truthy as it is itself. *)
#[global] Instance truthy_undefined {A} `{Truthy A} : Truthy (option A) :=
  fun o => match o with Some a => truthy a | None => false end.

(** [a || b]: the left operand when it is truthy, else the right one. *)
Definition js_or {A} `{Truthy A} (a b : A) : A := if truthy a then a else b.

(** [a || d] where [a] may be [undefined] and [d] is a plain value: the
    result is never [undefined]. *)
Definition js_or_else {A} `{Truthy A} (a : option A) (d : A) : A :=
  match a with
  | Some v => if truthy v then v else d
  | None => d
  end.

(** [o?.f]: [undefined] when [o] is missing, else the property. *)
Definition opt_chain {A B} (o : option A) (f : A -> option B) : option B :=
  match o with
  | Some a => f a
  | None => None
  end.

Declare Scope js_scope.
Delimit Scope js_scope with js.
Infix "|||" := js_or (at level 50, left associativity) : js_scope.
Infix "||!" := js_or_else (at level 50, left associativity) : js_scope.
Infix "?." := opt_chain (at level 40, left associativity) : js_scope.
Local Open Scope js_scope.

(** [array?.length] *)
Definition array_length {A} (o : option (list A)) : option Z :=
  option_map (fun l => Z.of_nat (List.length l)) o.

(** Number to string, as a template literal does it for an integer that
    prints in plain digits (below 1e21 in absolute value). *)
Definition Number_toString (z : Z) : string :=
  NilZero.string_of_int (Z.to_int z).

(** [`${v}`] for a number that may be [undefined]. *)
Definition template_number (v : option Z) : string :=
  match v with
  | Some z => Number_toString z
  | None => "undefined"
  end.

(** * Provider data, as the code reads it *)

Record Author := {
  username : option string;
  display_name : option string;
  fname : option string;
  fid : option Z
}.

(** [cast.reactions]: the lists of reacting users (their fids). *)
Record Reactions := {
  reactions_likes : option (list Z);
  reactions_recasts : option (list Z)
}.

(** [cast.replies] is an object with a [count] in the current provider
    format; the code also reads [cast.replies?.length], which is defined when
    the field is an array. *)
Inductive Replies :=
| RepliesObject (count : option Z)
| RepliesArray (items : list string).

Definition replies_count (r : Replies) : option Z :=
  match r with
  | RepliesObject c => c
  | RepliesArray _ => None
  end.

Definition replies_length (r : Replies) : option Z :=
  match r with
  | RepliesObject _ => None
  | RepliesArray l => Some (Z.of_nat (List.length l))
  end.

(** The value of [cast.timestamp], the argument of [new Date(...)]. *)
Inductive Timestamp :=
| TsUndefined
| TsNull
| TsNumber (ms : Z)
| TsString (s : string).

(** A cast as returned by the provider. [cast_likes] and [cast_recasts] are
    the top-level [cast.likes] and [cast.recasts] that the record builder
    falls back to. *)
Record Cast := {
  cast_text : option string;
  cast_author : option Author;
  cast_reactions : option Reactions;
  cast_replies : option Replies;
  cast_likes : option (list Z);
  cast_recasts : option (list Z);
  cast_timestamp : Timestamp;
  cast_hash : option string
}.

(** * getAuthorName and calculateScore *)

(** [cast.author?.username || cast.author?.display_name ||
     cast.author?.fname || `FID-${cast.author?.fid}` || 'Unknown'] *)
Definition getAuthorName (cast : Cast) : string :=
  (cast_author cast ?. username
     ||| cast_author cast ?. display_name
     ||| cast_author cast ?. fname
     ||! ("FID-" ++ template_number (cast_author cast ?. fid))%string)
    ||| "Unknown".

Definition calculateScore (cast : Cast) : Z :=
  let likes := array_length (cast_reactions cast ?. reactions_likes) ||! 0 in
  let replies := (cast_replies cast ?. replies_count) ||! 0 in
  let recasts := array_length (cast_reactions cast ?. reactions_recasts) ||! 0 in
  likes + (replies * 2) + (recasts * 3).

(** * Dates *)

(** [TimeClip]: a time value outside +-8.64e15 ms is an invalid date. *)
Definition TimeClip (t : Z) : option Z :=
  if Z.abs t <=? 8640000000000000 then Some t else None.

(** The time value of [new Date(v)]; [None] is the invalid date.
    [Date_parse] is the engine's string parser. *)
Definition new_Date (Date_parse : string -> option Z) (v : Timestamp) : option Z :=
  match v with
  | TsUndefined => None
  | TsNull => TimeClip 0
  | TsNumber ms => TimeClip ms
  | TsString s => Date_parse s
  end.

(** [a >= b] on two dates: false as soon as one of them is invalid. *)
Definition Date_ge (a b : option Z) : bool :=
  match a, b with
  | Some x, Some y => y <=? x
  | _, _ => false
  end.

(** The one string format every engine must accept, in its complete UTC
    form [YYYY-MM-DDTHH:mm:ss.sssZ]. It instantiates [Date_parse] in the
    concrete runs below; the general results hold for any parser. *)
Module IsoDate.

Definition digit (c : ascii) : option Z :=
  let n := Z.of_nat (nat_of_ascii c) in
  if (48 <=? n) && (n <=? 57) then Some (n - 48) else None.

(** Exactly [n] decimal digits, then the rest of the string. *)
Fixpoint digits (n : nat) (acc : Z) (s : string) : option (Z * string) :=
  match n with
  | O => Some (acc, s)
  | S n' =>
      match s with
      | String c s' =>
          match digit c with
          | Some d => digits n' (acc * 10 + d) s'
          | None => None
          end
      | EmptyString => None
      end
  end.

Definition expect (c : ascii) (s : string) : option string :=
  match s with
  | String c' s' => if Ascii.eqb c c' then Some s' else None
  | EmptyString => None
  end.

Definition is_leap (y : Z) : bool :=
  ((y mod 4 =? 0) && negb (y mod 100 =? 0)) || (y mod 400 =? 0).

Definition days_in_month (y m : Z) : Z :=
  if m =? 2 then (if is_leap y then 29 else 28)
  else if (m =? 4) || (m =? 6) || (m =? 9) || (m =? 11) then 30
  else 31.

(** Days from 1970-01-01 to the civil date [y]-[m]-[d]. *)
Definition days_from_civil (y m d : Z) : Z :=
  let y' := if m <=? 2 then y - 1 else y in
  let era := y' / 400 in
  let yoe := y' - era * 400 in
  let mp := (m + 9) mod 12 in
  let doy := (153 * mp + 2) / 5 + d - 1 in
  let doe := yoe * 365 + yoe / 4 - yoe / 100 + doy in
  era * 146097 + doe - 719468.

Definition bind {A B} (o : option A) (f : A -> option B) : option B :=
  match o with Some a => f a | None => None end.

Definition parse (s : string) : option Z :=
  bind (digits 4 0 s) (fun '(y, s) =>
  bind (expect "-" s) (fun s =>
  bind (digits 2 0 s) (fun '(mo, s) =>
  bind (expect "-" s) (fun s =>
  bind (digits 2 0 s) (fun '(d, s) =>
  bind (expect "T" s) (fun s =>
  bind (digits 2 0 s) (fun '(h, s) =>
  bind (expect ":" s) (fun s =>
  bind (digits 2 0 s) (fun '(mi, s) =>
  bind (expect ":" s) (fun s =>
  bind (digits 2 0 s) (fun '(sec, s) =>
  bind (expect "." s) (fun s =>
  bind (digits 3 0 s) (fun '(ms, s) =>
  bind (expect "Z" s) (fun s =>
  match s with
  | EmptyString =>
      if (1 <=? mo) && (mo <=? 12) && (1 <=? d) && (d <=? days_in_month y mo)
         && (h <=? 23) && (mi <=? 59) && (sec <=? 59)
      then Some (((days_from_civil y mo d * 24 + h) * 60 + mi) * 60000
                 + sec * 1000 + ms)
      else None
  | _ => None
  end)))))))))))))).

End IsoDate.

(** * parseInt *)

Definition is_whitespace (c : ascii) : bool :=
  let n := nat_of_ascii c in
  ((9 <=? n) && (n <=? 13))%nat || (n =? 32)%nat.

Fixpoint skip_whitespace (s : string) : string :=
  match s with
  | String c s' => if is_whitespace c then skip_whitespace s' else s
  | EmptyString => s
  end.

Definition digit_value (radix : Z) (c : ascii) : option Z :=
  let n := Z.of_nat (nat_of_ascii c) in
  let v := if (48 <=? n) && (n <=? 57) then Some (n - 48)
           else if (97 <=? n) && (n <=? 122) then Some (n - 87)
           else if (65 <=? n) && (n <=? 90) then Some (n - 55)
           else None in
  match v with
  | Some d => if d <? radix then Some d else None
  | None => None
  end.

(** The longest prefix of digits; [None] (NaN) when there is none. *)
Fixpoint parse_digits (radix : Z) (acc : option Z) (s : string) : option Z :=
  match s with
  | String c s' =>
      match digit_value radix c with
      | Some d =>
          parse_digits radix
            (Some (match acc with Some a => a * radix + d | None => d end)) s'
      | None => acc
      end
  | EmptyString => acc
  end.

(** [parseInt(s)] without a radix: leading white space, a sign, an optional
    [0x] prefix, then digits. [None] is NaN. The white space skipped is the
    ASCII one (tab to carriage return, and space), which is all of it on
    strings of ASCII characters. *)
Definition parseInt (s : string) : option Z :=
  let s := skip_whitespace s in
  let '(sign, s) :=
    match s with
    | String "-" s' => (-1, s')
    | String "+" s' => (1, s')
    | _ => (1, s)
    end in
  let '(radix, s) :=
    match s with
    | String "0" (String "x" s') => (16, s')
    | String "0" (String "X" s') => (16, s')
    | _ => (10, s)
    end in
  option_map (Z.mul sign) (parse_digits radix None s).

(** * The world: clock, provider calls and delays *)

Inductive Event :=
| EvLookup (name : string)            (* lookupUserByUsername(name) *)
| EvFetch (fid : Z) (limit : Z)       (* fetchCastsForUser / fetchUserCasts *)
| EvDelay (ms : Z).                   (* await of a setTimeout *)

(** The clock in milliseconds since the epoch, and what the process has done
    to the outside so far, oldest event first. *)
Record World := {
  clock : Z;
  trace : list Event
}.

(** A thrown [Error]. *)
Record Exn := { message : string }.

Inductive Result (A : Type) :=
| Ok (a : A)
| Throw (e : Exn).
Arguments Ok {A} a.
Arguments Throw {A} e.

(** Computations that read and change the world and may throw. *)
Definition M (A : Type) : Type := World -> Result A * World.

Definition ret {A} (a : A) : M A := fun w => (Ok a, w).

Definition bind {A B} (c : M A) (k : A -> M B) : M B :=
  fun w =>
    match c w with
    | (Ok a, w') => k a w'
    | (Throw e, w') => (Throw e, w')
    end.

Definition throw {A} (e : Exn) : M A := fun w => (Throw e, w).

(** [try { c } catch (e) { h e }] *)
Definition try_catch {A} (c : M A) (h : Exn -> M A) : M A :=
  fun w =>
    match c w with
    | (Ok a, w') => (Ok a, w')
    | (Throw e, w') => h e w'
    end.

Notation "x <- c ;; k" := (bind c (fun x => k))
  (at level 61, c at next level, right associativity) : js_scope.
Notation "c ;;; k" := (bind c (fun _ => k))
  (at level 61, right associativity) : js_scope.

(** [for (const x of l) { s = body s x }], the loop state passed along. *)
Fixpoint for_of {A S} (l : list A) (body : S -> A -> M S) (s : S) : M S :=
  match l with
  | [] => ret s
  | x :: l' => s' <- body s x ;; for_of l' body s'
  end.

(** [Date.now()] and [new Date().getTime()] *)
Definition Date_now : M Z := fun w => (Ok (clock w), w).

(** [await new Promise(resolve => setTimeout(resolve, ms))] *)
Definition delay (ms : Z) : M unit :=
  fun w => (Ok tt, {| clock := clock w + ms; trace := trace w ++ [EvDelay ms] |}).

(** ** The provider client *)

(** What the code reads of a user lookup:
    [userResponse.result?.user?.fid] and [userResponse.user?.fid]. *)
Record UserResponse := {
  result_user_fid : option Z;
  user_fid : option Z
}.

(** An element of a casts array: a cast object, or JSON [null]. *)
Definition CastItem := option Cast.

(** What the code reads of a casts response: [response.result?.casts],
    [response.casts] and [response.data?.casts]. *)
Record CastsResponse := {
  response_result_casts : option (list CastItem);
  response_casts : option (list CastItem);
  response_data_casts : option (list CastItem)
}.

(** [neynarClient]. A call resolves or rejects as the provider decides, which
    may depend on the instant and on everything the process did before
    (a rate limit, for one); it takes [latency] milliseconds. The two fetch
    methods are optional: the code tests for them with [typeof]. *)
Record NeynarClient := {
  lookupUserByUsername : World -> string -> Result UserResponse;
  fetchCastsForUser : option (World -> Z -> Z -> Result CastsResponse);
  fetchUserCasts : option (World -> Z -> Z -> Result CastsResponse);
  latency : World -> Z
}.

(** [await] of a provider call: the call is recorded, the clock moves on, and
    a rejection is thrown. *)
Definition await_call {A} (client : NeynarClient) (ev : Event)
    (outcome : World -> Result A) : M A :=
  fun w =>
    (outcome w,
     {| clock := clock w + latency client w; trace := trace w ++ [ev] |}).

(** * Configuration *)

Inductive UserIdentifier :=
| UNumber (n : Z)
| UString (s : string).

(** An object literal with string keys, in insertion order. *)
Definition ChannelUsers := list (string * list UserIdentifier).

Definition CHANNEL_USERS : ChannelUsers :=
  [ ("/farcaster", [UNumber 1325; UNumber 15983; UNumber 99]);
    ("/fc-devs", [UNumber 3621; UNumber 8152]);
    ("/higher", [UNumber 3]);
    ("/ai", [UNumber 221255]) ].

(** [obj[key]] *)
Fixpoint get_property {V} (obj : list (string * V)) (key : string) : option V :=
  match obj with
  | [] => None
  | (k, v) :: obj' => if (k =? key)%string then Some v else get_property obj' key
  end.

Definition Object_keys {V} (obj : list (string * V)) : list string :=
  map fst obj.

(** [array.slice(0, n)] *)
Definition slice0 {A} (n : nat) (l : list A) : list A := firstn n l.
Arguments slice0 : simpl never.

(** [array.sort(compare)]: the sort is stable, and orders by [compare] when
    it is a consistent comparator. Insertion from the right: an element goes
    in front of the first one it does not have to follow, so it stays ahead
    of its equals, which all came later. *)
Fixpoint sort_insert {A} (compare : A -> A -> Z) (x : A) (l : list A) : list A :=
  match l with
  | [] => [x]
  | y :: l' =>
      if compare x y <=? 0 then x :: y :: l'
      else y :: sort_insert compare x l'
  end.

Definition Array_sort {A} (compare : A -> A -> Z) (l : list A) : list A :=
  fold_right (sort_insert compare) [] l.

(** * The digest's data *)

(** The object literal that [fetchChannelCasts] builds for each cast. *)
Record CastRecord := {
  text : option string;
  author : string;
  authorFid : option Z;
  likes : Z;
  replies : Z;
  recasts : Z;
  timestamp : Timestamp;
  hash : option string;
  score : Z
}.

Record Entry := {
  channel : string;
  casts : list CastRecord;
  error : option string       (* [null] is [None] *)
}.

Definition Digest := list Entry.

(** The module-level [cache] object; [null] is [None]. *)
Record Cache := {
  cache_data : option Digest;
  cache_timestamp : option Z
}.

Definition CACHE_DURATION : Z := 30 * 60 * 1000.

Definition empty_cache : Cache :=
  {| cache_data := None; cache_timestamp := None |}.

(** Reading a property of [null]. *)
Definition TypeError_null (property : string) : Exn :=
  {| message :=
       ("Cannot read properties of null (reading '" ++ property ++ "')")%string |}.

(** Reading a property of [undefined]. *)
Definition TypeError_undefined (property : string) : Exn :=
  {| message :=
       ("Cannot read properties of undefined (reading '" ++ property ++ "')")%string |}.

Definition lift_result {A} (r : Result A) : M A := fun w => (r, w).

(** * fetchChannelCasts *)

Section Aggregation.

Variable Date_parse : string -> option Z.
Variable neynarClient : NeynarClient.
(** The global [CHANNEL_USERS]. *)
Variable channel_users : ChannelUsers.

(** Lines 128-149: the fid of a roster entry. [None] stands for the
    [continue] of the two failure paths. *)
Definition resolve_fid (userIdentifier : UserIdentifier) : M (option Z) :=
  match userIdentifier with
  | UNumber n => ret (Some n)
  | UString name =>
      match parseInt name with
      | Some n => ret (Some n)
      | None =>
          try_catch
            (userResponse <-
               await_call neynarClient (EvLookup name)
                 (fun w => lookupUserByUsername neynarClient w name) ;;
             let fid :=
               result_user_fid userResponse ||| user_fid userResponse in
             if negb (truthy fid) then ret None
             else delay 2000 ;;; ret fid)
            (fun err => ret None)
      end
  end.

(** Lines 153-167: the fetch through whichever method the client has.
    [None] stands for [continue]. *)
Definition fetch_response (fid : Z) : M (option CastsResponse) :=
  try_catch
    (match fetchCastsForUser neynarClient with
     | Some method =>
         response <-
           await_call neynarClient (EvFetch fid 25)
             (fun w => method w fid 25) ;;
         ret (Some response)
     | None =>
         match fetchUserCasts neynarClient with
         | Some method =>
             response <-
               await_call neynarClient (EvFetch fid 25)
                 (fun w => method w fid 25) ;;
             ret (Some response)
         | None => ret None
         end
     end)
    (fun err => ret None).

(** Lines 126-180: the body of the loop over the roster; [allCasts] is the
    array it pushes to. *)
Definition process_user (allCasts : list CastItem)
    (userIdentifier : UserIdentifier) : M (list CastItem) :=
  try_catch
    (fid <- resolve_fid userIdentifier ;;
     match fid with
     | None => ret allCasts
     | Some fid =>
         response <- fetch_response fid ;;
         match response with
         | None => ret allCasts
         | Some response =>
             let casts :=
               response_result_casts response
                 ||| response_casts response
                 ||| response_data_casts response
                 ||! [] in
             delay 2000 ;;; ret (allCasts ++ casts)
         end
     end)
    (fun error => ret allCasts).

(** Lines 184-187: the filter callback. *)
Definition in_window (oneDayAgo : option Z) (cast : Cast) : bool :=
  let castDate := new_Date Date_parse (cast_timestamp cast) in
  Date_ge castDate oneDayAgo.

(** [allCasts.filter(...)]: reading [cast.timestamp] of a [null] element
    throws. *)
Fixpoint filter_items (keep : Cast -> bool) (items : list CastItem)
    : Result (list Cast) :=
  match items with
  | [] => Ok []
  | None :: _ => Throw (TypeError_null "timestamp")
  | Some cast :: rest =>
      match filter_items keep rest with
      | Ok kept => Ok (if keep cast then cast :: kept else kept)
      | Throw e => Throw e
      end
  end.

(** Lines 188-198: the map callback. *)
Definition to_record (cast : Cast) : CastRecord :=
  {| text := cast_text cast;
     author := getAuthorName cast;
     authorFid := cast_author cast ?. fid;
     likes := array_length (cast_reactions cast ?. reactions_likes)
                ||| array_length (cast_likes cast) ||! 0;
     replies := cast_replies cast ?. replies_count
                  ||| cast_replies cast ?. replies_length ||! 0;
     recasts := array_length (cast_reactions cast ?. reactions_recasts)
                  ||| array_length (cast_recasts cast) ||! 0;
     timestamp := cast_timestamp cast;
     hash := cast_hash cast;
     score := calculateScore cast |}.

(** Line 199: the comparator. *)
Definition by_score (a b : CastRecord) : Z := score b - score a.

(** Lines 183-200. *)
Definition recent_casts (oneDayAgo : option Z) (allCasts : list CastItem)
    : Result (list CastRecord) :=
  match filter_items (in_window oneDayAgo) allCasts with
  | Ok kept => Ok (slice0 5 (Array_sort by_score (map to_record kept)))
  | Throw e => Throw e
  end.

(** Lines 111-202: what the outer [try] encloses. *)
Definition fetchChannelCasts_try (channel : string) : M (list CastRecord) :=
  now <- Date_now ;;
  let oneDayAgo := TimeClip (now - 48 * 60 * 60 * 1000) in
  let users := get_property channel_users channel ||! [] in
  if (List.length users =? 0)%nat then ret []
  else
    let users := slice0 4 users in
    allCasts <- for_of users process_user [] ;;
    recentCasts <- lift_result (recent_casts oneDayAgo allCasts) ;;
    ret recentCasts.

Definition fetchChannelCasts (channel : string) : M (list CastRecord) :=
  try_catch (fetchChannelCasts_try channel) (fun error => ret []).

(** * The page and the [GET /] handler *)

(** The replacement table of [escapeHtml]. *)
Definition escape_char (c : ascii) : string :=
  match nat_of_ascii c with
  | 38%nat => "&amp;"
  | 60%nat => "&lt;"
  | 62%nat => "&gt;"
  | 34%nat => "&quot;"
  | 39%nat => "&#039;"
  | _ => String c EmptyString
  end.

Fixpoint escape_string (s : string) : string :=
  match s with
  | EmptyString => EmptyString
  | String c s' => (escape_char c ++ escape_string s')%string
  end.

(** [escapeHtml(text)]: [text.replace] of a missing text throws. *)
Definition escapeHtml (text : option string) : Result string :=
  match text with
  | Some s => Ok (escape_string s)
  | None => Throw (TypeError_undefined "replace")
  end.

(** [casts.forEach(...)] of [generateHTML], as far as the cast texts go. *)
Fixpoint render_casts (records : list CastRecord) : Result (list string) :=
  match records with
  | [] => Ok []
  | record :: rest =>
      match escapeHtml (text record) with
      | Ok escaped =>
          match render_casts rest with
          | Ok others => Ok (escaped :: others)
          | Throw e => Throw e
          end
      | Throw e => Throw e
      end
  end.

(** One section: the error box when the entry has an error description,
    else its casts. *)
Definition render_entry (entry : Entry) : Result (list string) :=
  if truthy (error entry) then Ok []
  else render_casts (casts entry).

(** [digest.forEach(...)] of [generateHTML]. *)
Fixpoint render_digest (digest : Digest) : Result (list (list string)) :=
  match digest with
  | [] => Ok []
  | entry :: rest =>
      match render_entry entry with
      | Ok section =>
          match render_digest rest with
          | Ok others => Ok (section :: others)
          | Throw e => Throw e
          end
      | Throw e => Throw e
      end
  end.

(** What [generateHTML] puts on the page: the loading page, or the
    "last updated" line (minutes ago, when a cache timestamp is given), the
    digest whose entries make the sections, and the escaped cast texts of
    each section. The rest of the markup is not modelled. *)
Inductive Html :=
| LoadingPage
| DigestPage (minutesAgo : option Z) (sections : Digest)
    (texts : list (list string)).

Definition generateHTML (digest : option Digest) (isLoading : bool)
    (cacheTimestamp : option Z) : M Html :=
  if isLoading then ret LoadingPage
  else
    minutesAgo <-
      (if truthy cacheTimestamp then
         now <- Date_now ;;
         ret (option_map (fun t => (now - t) / 1000 / 60) cacheTimestamp)
       else ret None) ;;
    match digest with
    | Some sections =>
        texts <- lift_result (render_digest sections) ;;
        ret (DigestPage minutesAgo sections texts)
    | None => throw (TypeError_null "forEach")
    end.

(** Lines 426-435: the body of the loop over the channels. *)
Definition process_channel (digest : Digest) (channel : string) : M Digest :=
  try_catch
    (casts <- fetchChannelCasts channel ;;
     ret (digest ++ [{| channel := channel; casts := casts; error := None |}]))
    (fun error =>
       ret (digest ++ [{| channel := channel; casts := [];
                          error := Some (message error) |}])).

(** [app.get('/', ...)]: [refresh] is [req.query.refresh]. The result is
    the page sent (or what the handler throws), the module's [cache] as the
    handler leaves it, and the world. The cache is assigned before the page
    is built, so it keeps the new digest even when building the page
    throws. The clock of a world moves at provider calls and delays only:
    the validity test and the "last updated" figure of a page served from
    the cache, two readings of [Date.now()] in the code, are taken at the
    same instant here. *)
Definition get_root (refresh : option string) (cache : Cache) (w : World)
    : Result Html * Cache * World :=
  let forceRefresh :=
    match refresh with
    | Some value => (value =? "true")%string
    | None => false
    end in
  let now := clock w in
  let cacheAge :=
    if truthy (cache_timestamp cache)
    then option_map (fun t => now - t) (cache_timestamp cache)
    else None in
  let isCacheValid :=
    negb forceRefresh
    && truthy (cache_data cache)
    && truthy (cache_timestamp cache)
    && (match cacheAge with Some age => age | None => 0 end <? CACHE_DURATION) in
  if isCacheValid then
    let '(html, w1) :=
      generateHTML (cache_data cache) false (cache_timestamp cache) w in
    (html, cache, w1)
  else
    let channels := Object_keys channel_users in
    match for_of channels process_channel [] w with
    | (Ok digest, w1) =>
        let cache' :=
          {| cache_data := Some digest; cache_timestamp := Some (clock w1) |} in
        let '(html, w2) :=
          generateHTML (Some digest) false (cache_timestamp cache') w1 in
        (html, cache', w2)
    | (Throw e, w1) => (Throw e, cache, w1)
    end.

End Aggregation.

(** * Specification-side definitions *)

(** A count that is missing reads as 0. *)
Definition count_or_zero (o : option Z) : Z :=
  match o with
  | Some n => n
  | None => 0
  end.

(** The three counts the score is computed from. *)
Definition likes_count (cast : Cast) : Z :=
  match cast_reactions cast with
  | Some r =>
      match reactions_likes r with
      | Some l => Z.of_nat (List.length l)
      | None => 0
      end
  | None => 0
  end.

Definition recasts_count (cast : Cast) : Z :=
  match cast_reactions cast with
  | Some r =>
      match reactions_recasts r with
      | Some l => Z.of_nat (List.length l)
      | None => 0
      end
  | None => 0
  end.

Definition reply_count (cast : Cast) : Z :=
  match cast_replies cast with
  | Some (RepliesObject c) => count_or_zero c
  | _ => 0
  end.

(** A name that is present and not the empty string. *)
Definition present_name (o : option string) : option string :=
  match o with
  | Some EmptyString => None
  | other => other
  end.

(** The placeholder of [getAuthorName]. *)
Definition fid_placeholder (cast : Cast) : string :=
  ("FID-" ++ template_number (cast_author cast ?. fid))%string.

(** The timestamp of [cast] is a valid date at or after [start]. *)
Definition dated_since (Date_parse : string -> option Z) (start : Z)
    (cast : Cast) : bool :=
  match new_Date Date_parse (cast_timestamp cast) with
  | Some t => start <=? t
  | None => false
  end.

(** The events that are requests to the provider. *)
Definition is_provider_call (ev : Event) : bool :=
  match ev with
  | EvLookup _ | EvFetch _ _ => true
  | EvDelay _ => false
  end.

Definition provider_calls (t : list Event) : list Event :=
  filter is_provider_call t.

(** Score-descending order. *)
Definition score_ge (a b : CastRecord) : Prop := score b <= score a.

Definition has_score (k : Z) (r : CastRecord) : bool := score r =? k.

(** [ranked] is [fetched] sorted by descending score with equal scores left
    in the order of [fetched]. *)
Definition StableRanking (fetched ranked : list CastRecord) : Prop :=
  Permutation fetched ranked
  /\ StronglySorted score_ge ranked
  /\ forall k, filter (has_score k) ranked = filter (has_score k) fetched.

(** The records of the casts that pass the window filter of a channel
    aggregation started in [w], in fetch order: roster order, then the order
    of each response. *)
Definition fetched_records (Date_parse : string -> option Z)
    (client : NeynarClient) (users : ChannelUsers) (channel : string)
    (w : World) : list CastRecord :=
  let roster := slice0 4 (get_property users channel ||! []) in
  match for_of roster (process_user client) [] w with
  | (Ok allCasts, _) =>
      let oneDayAgo := TimeClip (clock w - 48 * 60 * 60 * 1000) in
      match filter_items (in_window Date_parse oneDayAgo) allCasts with
      | Ok kept => map to_record kept
      | Throw _ => []
      end
  | (Throw _, _) => []
  end.

(** The fids of a roster that holds numbers only. *)
Definition numeric_ids (roster : list UserIdentifier) : list Z :=
  flat_map (fun u => match u with UNumber n => [n] | UString _ => [] end) roster.

(** The fetches a pass over [CHANNEL_USERS] is due to issue: for each
    channel in turn, its first four authors in roster order. *)
Definition full_refetch : list Event :=
  flat_map
    (fun entry => map (fun fid => EvFetch fid 25)
                    (firstn 4 (numeric_ids (snd entry))))
    CHANNEL_USERS.

(** The fetch method the client offers, in the order the code tries them. *)
Definition fetch_method (client : NeynarClient)
    : option (World -> Z -> Z -> Result CastsResponse) :=
  match fetchCastsForUser client with
  | Some method => Some method
  | None => fetchUserCasts client
  end.

(** The world after an awaited provider call. *)
Definition after_call (client : NeynarClient) (ev : Event) (w : World) : World :=
  {| clock := clock w + latency client w; trace := trace w ++ [ev] |}.

(** The world after a delay. *)
Definition after_delay (ms : Z) (w : World) : World :=
  {| clock := clock w + ms; trace := trace w ++ [EvDelay ms] |}.

(** The fid a roster entry carries without a lookup. *)
Definition static_fid (u : UserIdentifier) : option Z :=
  match u with
  | UNumber n => Some n
  | UString s => parseInt s
  end.

(** The provider rejects the fetch for [fid] issued in [w]. *)
Definition fetch_rejected (client : NeynarClient) (fid : Z) (w : World) : Prop :=
  exists method e,
    fetch_method client = Some method /\ method w fid 25 = Throw e.

(** * Concrete runs *)

Module Examples.

(** 2025-01-03T00:00:00.000Z, nothing done yet. *)
Definition w0 : World := {| clock := 1735862400000; trace := [] |}.

Definition user (name : string) (id : Z) : Author :=
  {| username := Some name; display_name := None; fname := None;
     fid := Some id |}.

Definition fids (n : nat) : list Z := map Z.of_nat (seq 1 n).

(** A cast in the provider's current format. *)
Definition post (who : Author) (body : string) (nlikes : nat) (nreplies : Z)
    (nrecasts : nat) (at_ : string) : Cast :=
  {| cast_text := Some body;
     cast_author := Some who;
     cast_reactions :=
       Some {| reactions_likes := Some (fids nlikes);
               reactions_recasts := Some (fids nrecasts) |};
     cast_replies := Some (RepliesObject (Some nreplies));
     cast_likes := None;
     cast_recasts := None;
     cast_timestamp := TsString at_;
     cast_hash := Some ("0x" ++ body)%string |}.

(** A cast that carries its likes at the top level, the shape the record
    builder falls back to. *)
Definition legacy_post : Cast :=
  {| cast_text := Some "gm";
     cast_author := Some (user "dwr" 3);
     cast_reactions := None;
     cast_replies := None;
     cast_likes := Some [12; 15; 99];
     cast_recasts := None;
     cast_timestamp := TsString "2025-01-02T12:00:00.000Z";
     cast_hash := Some "0xgm" |}.

(** A cast object with no property at all. *)
Definition bare_cast : Cast :=
  {| cast_text := None; cast_author := None; cast_reactions := None;
     cast_replies := None; cast_likes := None; cast_recasts := None;
     cast_timestamp := TsUndefined; cast_hash := None |}.

Definition response (items : list CastItem) : CastsResponse :=
  {| response_result_casts := None;
     response_casts := Some items;
     response_data_casts := None |}.

(** A client with [fetchCastsForUser] only, answering by fid, whatever the
    instant; no user name resolves. *)
Definition client_of (answer : Z -> Result CastsResponse) : NeynarClient :=
  {| lookupUserByUsername :=
       fun _ _ => Throw {| message := "Request failed with status code 404" |};
     fetchCastsForUser := Some (fun _ fid _ => answer fid);
     fetchUserCasts := None;
     latency := fun _ => 120 |}.

Definition rate_limited : Exn :=
  {| message := "Request failed with status code 429" |}.

Definition yesterday : string := "2025-01-02T12:00:00.000Z".

(** fid 3 has one cast dated five years after [w0]. *)
Definition future_cast : Cast :=
  post (user "dwr" 3) "later" 1 0 0 "2030-01-01T00:00:00.000Z".

Definition client_future : NeynarClient :=
  client_of (fun fid =>
    Ok (response (if fid =? 3 then [Some future_cast] else []))).

(** The response for fid 3 holds a [null] where a cast should be. *)
Definition client_null_item : NeynarClient :=
  client_of (fun fid =>
    Ok (response (if fid =? 3 then [None]
                  else [Some (post (user "someone" fid) "hello" 2 1 0 yesterday)]))).

(** The provider rejects the fetch for fid 1325 and for fid 3621 and
    answers the others with one recent cast each. *)
Definition client_one_down : NeynarClient :=
  client_of (fun fid =>
    if (fid =? 1325) || (fid =? 3621) then Throw rate_limited
    else Ok (response [Some (post (user "someone" fid) "hello" 2 1 0 yesterday)])).

(** fid 3 answers with the legacy-shaped cast. *)
Definition client_legacy : NeynarClient :=
  client_of (fun fid =>
    Ok (response (if fid =? 3 then [Some legacy_post] else []))).

(** Author 3621 has casts scoring 10, 50 and 5; author 8152 one scoring
    30. *)
Definition client_scenario : NeynarClient :=
  client_of (fun fid =>
    Ok (response
          (if fid =? 3621 then
             [Some (post (user "horsefacts" 3621) "a" 10 0 0 yesterday);
              Some (post (user "horsefacts" 3621) "b" 0 25 0 yesterday);
              Some (post (user "horsefacts" 3621) "c" 5 0 0 yesterday)]
           else if fid =? 8152 then
             [Some (post (user "df" 8152) "d" 0 0 10 yesterday)]
           else []))).

(** A roster with a user name in it. *)
Definition users_with_name : ChannelUsers :=
  [ ("/test", [UString "ghost"; UNumber 3621]) ].

(** A first request, on an empty cache, and a second one ten minutes
    after the first has been answered. *)
Definition first_call : Result Html * Cache * World :=
  get_root IsoDate.parse client_scenario CHANNEL_USERS None empty_cache w0.

Definition first_page : Html :=
  match fst (fst first_call) with
  | Ok page => page
  | Throw _ => LoadingPage
  end.

Definition first_cache : Cache := snd (fst first_call).

Definition ten_minutes_later : World :=
  {| clock := clock (snd first_call) + 600000;
     trace := trace (snd first_call) |}.

End Examples.

(** * Further specification-side definitions *)

(** The characters that [escapeHtml] must not let through: the angle
    brackets and the two quotes. *)
Definition is_markup_char (c : ascii) : bool :=
  let n := nat_of_ascii c in
  ((n =? 60) || (n =? 62) || (n =? 34) || (n =? 39))%nat.

Definition is_fetch (ev : Event) : bool :=
  match ev with
  | EvFetch _ _ => true
  | _ => false
  end.

Definition is_lookup (ev : Event) : bool :=
  match ev with
  | EvLookup _ => true
  | _ => false
  end.

Definition is_delay (ev : Event) : bool :=
  match ev with
  | EvDelay _ => true
  | _ => false
  end.

Definition count_events (kind : Event -> bool) (t : list Event) : nat :=
  List.length (filter kind t).

(** [w'] is [w] after at most [nl] lookups, [nf] fetches and [nd] delays. *)
Definition at_most (nl nf nd : nat) (w w' : World) : Prop :=
  (count_events is_lookup (trace w') <= count_events is_lookup (trace w) + nl)%nat
  /\ (count_events is_fetch (trace w') <= count_events is_fetch (trace w) + nf)%nat
  /\ (count_events is_delay (trace w') <= count_events is_delay (trace w) + nd)%nat.

(** A stretch of events in which every provider call is followed at once by
    a delay of 2000 ms. *)
Inductive Cooled : list Event -> Prop :=
| Cooled_nil : Cooled []
| Cooled_delay ms t : Cooled t -> Cooled (EvDelay ms :: t)
| Cooled_call ev t :
    is_provider_call ev = true -> Cooled t -> Cooled (ev :: EvDelay 2000 :: t).

(** A client that never fails: it has a fetch method, every fetch resolves,
    and every lookup resolves with a fid. *)
Definition never_fails (client : NeynarClient) : Prop :=
  (exists method,
     fetch_method client = Some method
     /\ forall w fid, exists r, method w fid 25 = Ok r)
  /\ (forall w name, exists r fid,
        lookupUserByUsername client w name = Ok r
        /\ result_user_fid r ||| user_fid r = Some fid
        /\ fid <> 0).

(** The casts of a response, as the loop reads them. *)
Definition response_items (r : CastsResponse) : list CastItem :=
  response_result_casts r ||| response_casts r ||| response_data_casts r ||! [].

(** What an author adds to the collected casts when the provider answers
    [answer]. *)
Definition contribution (answer : Result CastsResponse) : list CastItem :=
  match answer with
  | Ok r => response_items r
  | Throw _ => []
  end.

(** A name that the loop hands to the lookup: [parseInt] reads no number
    in it. The name is made of ASCII characters, the strings on which
    [parseInt] above skips the same white space as the engine. *)
Definition needs_lookup (name : string) : Prop :=
  forallb (fun c => (nat_of_ascii c <? 128)%nat) (list_ascii_of_string name) = true
  /\ parseInt name = None.

(** A provider failure for the author whose turn comes in world [w], and
    the world it leaves: the name does not resolve (the lookup rejects, or
    answers without a fid), or the fetch rejects. *)
Inductive author_fails (client : NeynarClient)
    : UserIdentifier -> World -> World -> Prop :=
| lookup_rejected name w e :
    needs_lookup name ->
    lookupUserByUsername client w name = Throw e ->
    author_fails client (UString name) w (after_call client (EvLookup name) w)
| lookup_without_fid name w r :
    needs_lookup name ->
    lookupUserByUsername client w name = Ok r ->
    truthy (result_user_fid r ||| user_fid r) = false ->
    author_fails client (UString name) w (after_call client (EvLookup name) w)
| fetch_failed u fid w :
    static_fid u = Some fid ->
    fetch_rejected client fid w ->
    author_fails client u w (after_call client (EvFetch fid 25) w)
| fetch_failed_after_lookup name w r fid :
    needs_lookup name ->
    lookupUserByUsername client w name = Ok r ->
    result_user_fid r ||| user_fid r = Some fid ->
    fid <> 0 ->
    fetch_rejected client fid
      (after_delay 2000 (after_call client (EvLookup name) w)) ->
    author_fails client (UString name) w
      (after_call client (EvFetch fid 25)
         (after_delay 2000 (after_call client (EvLookup name) w))).

(** The provider answers the author whose turn comes in world [w] with the
    response [r] (after resolving the name, when there is one to resolve),
    and the world it leaves. *)
Inductive author_answers (client : NeynarClient)
    : UserIdentifier -> World -> CastsResponse -> World -> Prop :=
| fetch_answered u fid w method r :
    static_fid u = Some fid ->
    fetch_method client = Some method ->
    method w fid 25 = Ok r ->
    author_answers client u w r
      (after_delay 2000 (after_call client (EvFetch fid 25) w))
| fetch_answered_after_lookup name w found fid method r :
    needs_lookup name ->
    lookupUserByUsername client w name = Ok found ->
    result_user_fid found ||| user_fid found = Some fid ->
    fid <> 0 ->
    fetch_method client = Some method ->
    method (after_delay 2000 (after_call client (EvLookup name) w)) fid 25
    = Ok r ->
    author_answers client (UString name) w r
      (after_delay 2000
         (after_call client (EvFetch fid 25)
            (after_delay 2000 (after_call client (EvLookup name) w)))).

(** A pass over a roster told from the provider's side: for each author in
    turn the provider fails or answers, and [items] are the casts of the
    answers, in order. *)
Inductive roster_run (client : NeynarClient)
    : list UserIdentifier -> World -> list CastItem -> World -> Prop :=
| run_done w : roster_run client [] w [] w
| run_failed u us w w1 items w2 :
    author_fails client u w w1 ->
    roster_run client us w1 items w2 ->
    roster_run client (u :: us) w items w2
| run_answered u us w r w1 items w2 :
    author_answers client u w r w1 ->
    roster_run client us w1 items w2 ->
    roster_run client (u :: us) w (response_items r ++ items) w2.

(** An entry as the aggregation builds it: at most 5 casts, in
    non-increasing order of score, and no error description. *)
Definition entry_ranked (entry : Entry) : Prop :=
  (List.length (casts entry) <= 5)%nat
  /\ StronglySorted score_ge (casts entry)
  /\ error entry = None.

(** An entry whose section of the page can be built: it shows an error, or
    every cast it shows has a text. *)
Definition entry_renderable (entry : Entry) : Prop :=
  truthy (error entry) = true
  \/ Forall (fun record => text record <> None) (casts entry).

Definition cache_ranked (cache : Cache) : Prop :=
  match cache_data cache with
  | Some digest => Forall entry_ranked digest
  | None => True
  end.

(** The value of a decimal numeral read from the left, [acc] being the value
    of the digits before it. *)
Fixpoint uint_value (acc : Z) (d : Decimal.uint) : Z :=
  match d with
  | Decimal.Nil => acc
  | Decimal.D0 d => uint_value (acc * 10 + 0) d
  | Decimal.D1 d => uint_value (acc * 10 + 1) d
  | Decimal.D2 d => uint_value (acc * 10 + 2) d
  | Decimal.D3 d => uint_value (acc * 10 + 3) d
  | Decimal.D4 d => uint_value (acc * 10 + 4) d
  | Decimal.D5 d => uint_value (acc * 10 + 5) d
  | Decimal.D6 d => uint_value (acc * 10 + 6) d
  | Decimal.D7 d => uint_value (acc * 10 + 7) d
  | Decimal.D8 d => uint_value (acc * 10 + 8) d
  | Decimal.D9 d => uint_value (acc * 10 + 9) d
  end.

Module MoreExamples.

(** A client for which every name resolves (to the length of the name plus
    one) and every fetch is answered with one recent cast. *)
Definition client_all_up : NeynarClient :=
  {| lookupUserByUsername :=
       fun _ name =>
         Ok {| result_user_fid := None;
               user_fid := Some (Z.of_nat (String.length name) + 1) |};
     fetchCastsForUser :=
       Some (fun _ fid _ =>
               Ok (Examples.response
                     [Some (Examples.post (Examples.user "someone" fid)
                              "hello" 2 1 0 Examples.yesterday)]));
     fetchUserCasts := None;
     latency := fun _ => 120 |}.

(** A roster of five, names and numbers mixed. *)
Definition crowded : ChannelUsers :=
  [ ("/crowd", [UString "dwr"; UNumber 3621; UString "8152"; UNumber 99;
                UNumber 1325]) ].

(** Seven recent casts of one author, with 1 to 7 likes. *)
Definition seven_casts : list Cast :=
  map (fun n => Examples.post (Examples.user "dwr" 3) "cast" n 0 0
                  Examples.yesterday)
      [3; 7; 1; 5; 2; 6; 4]%nat.

(** fid 3 answers with a recent cast that has no [text]. *)
Definition client_textless : NeynarClient :=
  Examples.client_of (fun fid =>
    Ok (Examples.response
          (if fid =? 3 then
             [Some {| cast_text := None;
                      cast_author := Some (Examples.user "dwr" 3);
                      cast_reactions := None;
                      cast_replies := None;
                      cast_likes := None;
                      cast_recasts := None;
                      cast_timestamp := TsString Examples.yesterday;
                      cast_hash := Some "0xmute" |}]
           else []))).

(** fid 3 answers with four casts: one dated in 2030, one of the day
    before [w0], one four days old and one without a timestamp. *)
Definition client_window : NeynarClient :=
  Examples.client_of (fun fid =>
    Ok (Examples.response
          (if fid =? 3 then
             [Some Examples.future_cast;
              Some Examples.legacy_post;
              Some (Examples.post (Examples.user "dwr" 3) "old" 9 9 9
                      "2024-12-30T00:00:00.000Z");
              Some Examples.bare_cast]
           else []))).

End MoreExamples.

(** * Results *)

(** ** JavaScript operators *)

Lemma js_or_else_number (o : option Z) : o ||! 0 = count_or_zero o.
Proof.
  destruct o as [n|]; simpl; [|reflexivity].
  unfold truthy, truthy_number.
  destruct (Z.eqb_spec n 0) as [->|]; reflexivity.
Qed.

Lemma truthy_present_name (o : option string) :
  truthy o = match present_name o with Some _ => true | None => false end.
Proof. destruct o as [[|c s]|]; reflexivity. Qed.

Lemma js_or_names (a b : option string) :
  present_name (a ||| b) =
  match present_name a with
  | Some s => Some s
  | None => present_name b
  end.
Proof. destruct a as [[|c s]|]; reflexivity. Qed.

Lemma js_or_else_name (a : option string) (d : string) :
  a ||! d = match present_name a with Some s => s | None => d end.
Proof. destruct a as [[|c s]|]; reflexivity. Qed.

(** ** The state-and-exception monad *)

Lemma try_catch_ok {A} (c : M A) (h : Exn -> M A) (w : World) :
  (forall e w1, exists a w2, h e w1 = (Ok a, w2)) ->
  exists a w', try_catch c h w = (Ok a, w').
Proof.
  intros Hh. unfold try_catch.
  destruct (c w) as [[a|e] w1]; eauto.
Qed.

Lemma for_of_app {A S} (l1 l2 : list A) (body : S -> A -> M S) (s : S) (w : World) :
  for_of (l1 ++ l2) body s w =
  match for_of l1 body s w with
  | (Ok s1, w1) => for_of l2 body s1 w1
  | (Throw e, w1) => (Throw e, w1)
  end.
Proof.
  revert s w. induction l1 as [|x l1 IH]; intros s w; simpl.
  - reflexivity.
  - unfold bind. destruct (body s x w) as [[s1|e] w1]; [apply IH | reflexivity].
Qed.

(** ** Sorting *)

Section Sorting.

Lemma sort_insert_perm (x : CastRecord) (l : list CastRecord) :
  Permutation (x :: l) (sort_insert by_score x l).
Proof.
  induction l as [|y l IH]; simpl.
  - reflexivity.
  - destruct (by_score x y <=? 0).
    + reflexivity.
    + rewrite perm_swap. now apply perm_skip.
Qed.

Lemma Array_sort_perm (l : list CastRecord) :
  Permutation l (Array_sort by_score l).
Proof.
  induction l as [|x l IH]; simpl.
  - constructor.
  - etransitivity; [apply perm_skip, IH | apply sort_insert_perm].
Qed.

Lemma sort_insert_sorted (x : CastRecord) (l : list CastRecord) :
  StronglySorted score_ge l -> StronglySorted score_ge (sort_insert by_score x l).
Proof.
  induction 1 as [|y l Hs IH Hy]; simpl.
  - repeat constructor.
  - destruct (Z.leb_spec (by_score x y) 0) as [Hle|Hgt]; unfold by_score in *.
    + constructor; [now constructor|].
      constructor; [unfold score_ge; lia|].
      eapply Forall_impl; [|exact Hy].
      unfold score_ge. intros; lia.
    + constructor; [exact IH|].
      eapply Permutation_Forall; [apply sort_insert_perm|].
      constructor; [unfold score_ge; lia | exact Hy].
Qed.

Lemma Array_sort_sorted (l : list CastRecord) :
  StronglySorted score_ge (Array_sort by_score l).
Proof.
  induction l as [|x l IH]; simpl.
  - constructor.
  - now apply sort_insert_sorted.
Qed.

(** Insertion leaves the records of each score in their order. *)
Lemma sort_insert_stable (k : Z) (x : CastRecord) (l : list CastRecord) :
  filter (has_score k) (sort_insert by_score x l) = filter (has_score k) (x :: l).
Proof.
  induction l as [|y l IH]; simpl in *.
  - reflexivity.
  - destruct (Z.leb_spec (by_score x y) 0) as [Hle|Hgt]; [reflexivity|].
    simpl. rewrite IH. unfold has_score, by_score in *.
    destruct (Z.eqb_spec (score x) k), (Z.eqb_spec (score y) k);
      try reflexivity; lia.
Qed.

Lemma Array_sort_stable (k : Z) (l : list CastRecord) :
  filter (has_score k) (Array_sort by_score l) = filter (has_score k) l.
Proof.
  induction l as [|x l IH]; simpl.
  - reflexivity.
  - rewrite sort_insert_stable. simpl. now rewrite IH.
Qed.

Lemma Array_sort_ranking (l : list CastRecord) :
  StableRanking l (Array_sort by_score l).
Proof.
  repeat split.
  - apply Array_sort_perm.
  - apply Array_sort_sorted.
  - intro k. apply Array_sort_stable.
Qed.

Lemma slice0_In {A} (n : nat) (l : list A) (x : A) :
  In x (slice0 n l) -> In x l.
Proof.
  intros H. rewrite <- (firstn_skipn n l). apply in_or_app. now left.
Qed.

Lemma slice0_sorted (n : nat) (l : list CastRecord) :
  StronglySorted score_ge l -> StronglySorted score_ge (slice0 n l).
Proof.
  unfold slice0. intros H. revert n.
  induction H as [|x l Hs IH Hx]; intros [|n]; simpl; try constructor.
  - apply IH.
  - rewrite Forall_forall in *. intros y Hy. apply Hx.
    exact (slice0_In n l y Hy).
Qed.

Lemma slice0_length {A} (n : nat) (l : list A) :
  (List.length (slice0 n l) <= n)%nat.
Proof. unfold slice0. rewrite length_firstn. lia. Qed.

Lemma sorted_app_ge (l1 l2 : list CastRecord) :
  StronglySorted score_ge (l1 ++ l2) ->
  forall a, In a l1 -> forall b, In b l2 -> score_ge a b.
Proof.
  induction l1 as [|x l1 IH]; simpl; intros Hs a Ha b Hb; [contradiction|].
  apply StronglySorted_inv in Hs. destruct Hs as [Hs Hx].
  destruct Ha as [<-|Ha].
  - rewrite Forall_forall in Hx. apply Hx. apply in_or_app. now right.
  - now apply (IH Hs a Ha b).
Qed.

End Sorting.

(** ** The loop over the roster *)

Ltac run_monad :=
  unfold bind, ret, try_catch, throw, await_call, delay, Date_now, lift_result.

Section Roster.

Variable client : NeynarClient.

(** Resolution does not throw: a failure is a [continue]. *)
Lemma resolve_fid_static (u : UserIdentifier) (fid : Z) (w : World) :
  static_fid u = Some fid ->
  resolve_fid client u w = (Ok (Some fid), w).
Proof.
  destruct u as [n|name]; simpl; intros H.
  - now inversion H.
  - now rewrite H.
Qed.

(** A name that resolves costs one lookup and one delay. *)
Lemma resolve_fid_lookup (name : string) (w : World) (r : UserResponse) (fid : Z) :
  parseInt name = None ->
  lookupUserByUsername client w name = Ok r ->
  result_user_fid r ||| user_fid r = Some fid ->
  fid <> 0 ->
  resolve_fid client (UString name) w =
  (Ok (Some fid), after_delay 2000 (after_call client (EvLookup name) w)).
Proof.
  intros Hp Hl Hfid Hnz. simpl. rewrite Hp. run_monad. rewrite Hl, Hfid.
  unfold truthy, truthy_undefined, truthy, truthy_number.
  destruct (Z.eqb_spec fid 0); [contradiction | reflexivity].
Qed.

Lemma resolve_fid_total (u : UserIdentifier) (w : World) :
  exists o w', resolve_fid client u w = (Ok o, w').
Proof.
  destruct u as [n|name]; simpl; [now exists (Some n), w|].
  destruct (parseInt name) as [n|]; [now exists (Some n), w|].
  run_monad.
  destruct (lookupUserByUsername client w name) as [r|e]; [|eauto].
  destruct (negb _); eauto.
Qed.

Lemma fetch_response_total (fid : Z) (w : World) :
  exists o w', fetch_response client fid w = (Ok o, w').
Proof.
  unfold fetch_response. run_monad.
  destruct (fetchCastsForUser client) as [m|].
  - destruct (m w fid 25); eauto.
  - destruct (fetchUserCasts client) as [m|]; [|eauto].
    destruct (m w fid 25); eauto.
Qed.

(** One fetch through the method the client offers. *)
Lemma fetch_response_eq (fid : Z) (w : World) method :
  fetch_method client = Some method ->
  fetch_response client fid w =
  (Ok (match method w fid 25 with Ok r => Some r | Throw _ => None end),
   after_call client (EvFetch fid 25) w).
Proof.
  unfold fetch_method, fetch_response, after_call. run_monad.
  destruct (fetchCastsForUser client) as [m|].
  - intros [= <-]. destruct (m w fid 25); reflexivity.
  - intros ->. destruct (method w fid 25); reflexivity.
Qed.

(** The body of the loop never throws and only ever appends. *)
Lemma process_user_total (acc : list CastItem) (u : UserIdentifier) (w : World) :
  exists more w', process_user client acc u w = (Ok (acc ++ more), w').
Proof.
  unfold process_user.
  destruct (resolve_fid_total u w) as (o & w1 & Hr).
  unfold try_catch at 1. unfold bind at 1. rewrite Hr.
  destruct o as [fid|].
  - destruct (fetch_response_total fid w1) as (o' & w2 & Hf).
    unfold bind at 1. rewrite Hf.
    destruct o' as [r|].
    + run_monad. eauto.
    + run_monad. exists [], w2. now rewrite app_nil_r.
  - run_monad. exists [], w1. now rewrite app_nil_r.
Qed.

Lemma roster_loop_total (us : list UserIdentifier) (acc : list CastItem) (w : World) :
  exists more w', for_of us (process_user client) acc w = (Ok (acc ++ more), w').
Proof.
  revert acc w. induction us as [|u us IH]; intros acc w; simpl.
  - exists [], w. unfold ret. now rewrite app_nil_r.
  - destruct (process_user_total acc u w) as (m1 & w1 & H1).
    unfold bind. rewrite H1.
    destruct (IH (acc ++ m1) w1) as (m2 & w2 & H2).
    exists (m1 ++ m2), w2. now rewrite app_assoc.
Qed.

(** An author for whom the provider fails adds nothing, and the loop goes
    on. *)
Lemma process_user_failure (acc : list CastItem) (u : UserIdentifier)
    (w w' : World) :
  author_fails client u w w' ->
  process_user client acc u w = (Ok acc, w').
Proof.
  intros H. unfold process_user.
  destruct H as [name w e [_ Hp] Hl | name w r [_ Hp] Hl Hf
                | u fid w Hs (m & e & Hm & Hrej)
                | name w r fid [_ Hp] Hl Hfid Hnz (m & e & Hm & Hrej)].
  - simpl. rewrite Hp. run_monad. rewrite Hl. reflexivity.
  - simpl. rewrite Hp. run_monad. rewrite Hl, Hf. reflexivity.
  - unfold try_catch at 1. unfold bind at 1.
    rewrite (resolve_fid_static u fid w Hs).
    unfold bind at 1. rewrite (fetch_response_eq fid w m Hm), Hrej.
    reflexivity.
  - unfold try_catch at 1. unfold bind at 1.
    rewrite (resolve_fid_lookup name w r fid Hp Hl Hfid Hnz).
    unfold bind at 1. rewrite (fetch_response_eq fid _ m Hm), Hrej.
    reflexivity.
Qed.

(** An author whom the provider answers adds the casts of the answer. *)
Lemma process_user_answer (acc : list CastItem) (u : UserIdentifier)
    (w : World) (r : CastsResponse) (w' : World) :
  author_answers client u w r w' ->
  process_user client acc u w = (Ok (acc ++ response_items r), w').
Proof.
  intros H. unfold process_user.
  destruct H as [u fid w m r Hs Hm Hr
                | name w found fid m r [_ Hp] Hl Hfid Hnz Hm Hr].
  - unfold try_catch at 1. unfold bind at 1.
    rewrite (resolve_fid_static u fid w Hs).
    unfold bind at 1. rewrite (fetch_response_eq fid w m Hm), Hr.
    reflexivity.
  - unfold try_catch at 1. unfold bind at 1.
    rewrite (resolve_fid_lookup name w found fid Hp Hl Hfid Hnz).
    unfold bind at 1. rewrite (fetch_response_eq fid _ m Hm), Hr.
    reflexivity.
Qed.

(** The loop collects what the provider answered, author by author. *)
Lemma roster_run_loop (us : list UserIdentifier) (w : World)
    (items : list CastItem) (w' : World) :
  roster_run client us w items w' ->
  forall acc, for_of us (process_user client) acc w = (Ok (acc ++ items), w').
Proof.
  induction 1 as [w | u us w w1 items w2 Hf _ IH | u us w r w1 items w2 Ha _ IH];
    intros acc; simpl.
  - unfold ret. now rewrite app_nil_r.
  - unfold bind. rewrite (process_user_failure acc u w w1 Hf). apply IH.
  - unfold bind. rewrite (process_user_answer acc u w r w1 Ha).
    rewrite IH. now rewrite app_assoc.
Qed.

(** An author whose fid needs no lookup costs exactly one fetch. The
    delay follows when the fetch resolves, and only then. *)
Lemma process_user_static (acc : list CastItem) (u : UserIdentifier)
    (fid : Z) (w : World) method :
  static_fid u = Some fid ->
  fetch_method client = Some method ->
  process_user client acc u w =
  match method w fid 25 with
  | Ok r =>
      (Ok (acc ++ (response_result_casts r ||| response_casts r
                     ||| response_data_casts r ||! [])),
       after_delay 2000 (after_call client (EvFetch fid 25) w))
  | Throw _ => (Ok acc, after_call client (EvFetch fid 25) w)
  end.
Proof.
  intros Hs Hm. unfold process_user.
  unfold try_catch at 1. unfold bind at 1.
  rewrite (resolve_fid_static u fid w Hs).
  unfold bind at 1. rewrite (fetch_response_eq fid w method Hm).
  destruct (method w fid 25); reflexivity.
Qed.

Lemma provider_calls_app (t1 t2 : list Event) :
  provider_calls (t1 ++ t2) = provider_calls t1 ++ provider_calls t2.
Proof. apply filter_app. Qed.

(** A roster of numeric fids is fetched one by one, in order, whatever
    the provider answers. *)
Lemma roster_calls (ids : list Z) (acc : list CastItem) (w : World)
    (acc' : list CastItem) (w' : World) method :
  fetch_method client = Some method ->
  for_of (map UNumber ids) (process_user client) acc w = (Ok acc', w') ->
  provider_calls (trace w') =
  provider_calls (trace w) ++ map (fun fid => EvFetch fid 25) ids.
Proof.
  intros Hm. revert acc w.
  induction ids as [|fid ids IH]; intros acc w; simpl.
  - unfold ret. intros [= _ <-]. now rewrite app_nil_r.
  - unfold bind.
    rewrite (process_user_static acc (UNumber fid) fid w method eq_refl Hm).
    destruct (method w fid 25) as [r|e]; intros H; apply IH in H;
      rewrite H; unfold after_delay, after_call; simpl trace;
      rewrite ?provider_calls_app; simpl; rewrite <- ?app_assoc;
      rewrite ?app_nil_r; reflexivity.
Qed.

End Roster.

(** ** The window filter *)

Section Window.

Variable Date_parse : string -> option Z.

Lemma filter_items_casts (keep : Cast -> bool) (cs : list Cast) :
  filter_items keep (map Some cs) = Ok (filter keep cs).
Proof.
  induction cs as [|c cs IH]; simpl.
  - reflexivity.
  - rewrite IH. reflexivity.
Qed.

Lemma filter_items_In (keep : Cast -> bool) (items : list CastItem) (kept : list Cast) :
  filter_items keep items = Ok kept ->
  forall c, In c kept <-> In (Some c) items /\ keep c = true.
Proof.
  revert kept. induction items as [|[c0|] items IH]; simpl; intros kept H c.
  - inversion H. simpl. tauto.
  - destruct (filter_items keep items) as [kept0|e]; [|discriminate].
    specialize (IH kept0 eq_refl c).
    destruct (keep c0) eqn:Hk; inversion H; subst; simpl; rewrite ?IH;
      split; intros Hc.
    + destruct Hc as [->|[? ?]]; auto.
    + destruct Hc as [[[= ->]|?] ?]; auto.
    + tauto.
    + destruct Hc as [[[= ->]|?] ?]; [congruence | tauto].
  - discriminate.
Qed.

(** The filter callback asks for a valid date at or after [oneDayAgo];
    it asks nothing about [now]. *)
Lemma in_window_spec (start : Z) (c : Cast) :
  Z.abs start <= 8640000000000000 ->
  in_window Date_parse (TimeClip start) c = true <->
  exists t, new_Date Date_parse (cast_timestamp c) = Some t /\ start <= t.
Proof.
  intros Hv. unfold in_window, TimeClip, Date_ge.
  destruct (Z.leb_spec (Z.abs start) 8640000000000000); [|lia].
  destruct (new_Date Date_parse (cast_timestamp c)) as [t|].
  - rewrite Z.leb_le. split.
    + intros. exists t. auto.
    + intros (t' & [= <-] & H'). exact H'.
  - split; [discriminate | intros (t & Ht & _); discriminate].
Qed.

Lemma recent_casts_In (oneDayAgo : option Z) (items : list CastItem)
    (kept : list Cast) (ranked : list CastRecord) :
  filter_items (in_window Date_parse oneDayAgo) items = Ok kept ->
  recent_casts Date_parse oneDayAgo items = Ok ranked ->
  forall r, In r ranked -> exists c, In c kept /\ r = to_record c.
Proof.
  unfold recent_casts. intros -> Hranked r Hr.
  assert (E : ranked = slice0 5 (Array_sort by_score (map to_record kept)))
    by congruence.
  rewrite E in Hr. apply slice0_In in Hr.
  apply (Permutation_in _ (Permutation_sym (Array_sort_perm _))) in Hr.
  apply in_map_iff in Hr. destruct Hr as (c & <- & Hc). eauto.
Qed.

Lemma items_without_null (items : list CastItem) :
  ~ In None items -> exists fetched, items = map Some fetched.
Proof.
  induction items as [|[c|] items IH]; intros Hn.
  - exists []. reflexivity.
  - destruct IH as (fetched & ->); [intros H; apply Hn; now right|].
    exists (c :: fetched). reflexivity.
  - exfalso. apply Hn. now left.
Qed.

(** A cast that passes the filter has its record in the result, unless
    five records that score at least as much fill it. *)
Lemma recent_casts_member (oneDayAgo : option Z) (fetched : list Cast) (c : Cast) :
  In c fetched ->
  in_window Date_parse oneDayAgo c = true ->
  exists result,
    recent_casts Date_parse oneDayAgo (map Some fetched) = Ok result
    /\ (In (to_record c) result
        \/ (List.length result = 5%nat
            /\ Forall (fun r => score (to_record c) <= score r) result)).
Proof.
  intros Hin Hw. unfold recent_casts. rewrite filter_items_casts.
  set (ranked := Array_sort by_score
                   (map to_record (filter (in_window Date_parse oneDayAgo) fetched))).
  exists (slice0 5 ranked). split; [reflexivity|].
  assert (Hr : In (to_record c) ranked).
  { apply (Permutation_in _ (Array_sort_perm _)).
    apply in_map. apply filter_In. auto. }
  assert (Hs : StronglySorted score_ge (firstn 5 ranked ++ skipn 5 ranked)).
  { rewrite firstn_skipn. apply Array_sort_sorted. }
  unfold slice0. rewrite <- (firstn_skipn 5 ranked) in Hr.
  apply in_app_or in Hr. destruct Hr as [Hr|Hr]; [now left|right]. split.
  - rewrite length_firstn.
    assert (Hlen : (5 < List.length ranked)%nat).
    { destruct (Nat.le_gt_cases (List.length ranked) 5) as [Hle|Hgt]; [|exact Hgt].
      rewrite (skipn_all2 ranked Hle) in Hr. contradiction. }
    lia.
  - apply Forall_forall. intros r Hin'.
    exact (sorted_app_ge _ _ Hs r Hin' (to_record c) Hr).
Qed.

End Window.

(** ** One channel *)

Section Channel.

Variable Date_parse : string -> option Z.
Variable client : NeynarClient.
Variable users : ChannelUsers.

(** The aggregation of a channel is the ranking of what the loop over its
    roster collected; when the ranking throws, the result is the empty
    list. It never throws itself. *)
Lemma fetchChannelCasts_eq (ch : string) (w : World) :
  exists allCasts w1,
    for_of (slice0 4 (get_property users ch ||! []))
      (process_user client) [] w = (Ok allCasts, w1)
    /\ fetchChannelCasts_try Date_parse client users ch w =
       (recent_casts Date_parse (TimeClip (clock w - 48 * 60 * 60 * 1000))
          allCasts, w1)
    /\ fetchChannelCasts Date_parse client users ch w =
       (Ok match recent_casts Date_parse
                   (TimeClip (clock w - 48 * 60 * 60 * 1000)) allCasts with
           | Ok r => r
           | Throw _ => []
           end, w1).
Proof.
  unfold fetchChannelCasts, fetchChannelCasts_try.
  destruct (roster_loop_total client
              (slice0 4 (get_property users ch ||! [])) [] w)
    as (more & w1 & Hl).
  simpl app in Hl.
  destruct (get_property users ch ||! []) as [|u us].
  - exists [], w. simpl. run_monad. simpl. auto.
  - exists more, w1. split; [exact Hl|].
    change (List.length (u :: us) =? 0)%nat with false. cbv iota.
    run_monad. rewrite Hl.
    destruct (recent_casts _ _ more); auto.
Qed.

End Channel.

(** ** Scoring and author names *)

(** C2. For every cast, [calculateScore] returns likes + 2 * replies +
    3 * recasts, computed from the lengths of [reactions.likes] and
    [reactions.recasts] and from [replies.count], each read as 0 when it is
    missing; a cast without reactions and replies scores 0. The function is
    total and reads nothing but its argument. *)
Theorem calculateScore_formula :
  (forall cast : Cast,
     calculateScore cast
     = likes_count cast + 2 * reply_count cast + 3 * recasts_count cast)
  /\ (forall body who toplikes toprecasts at_ id,
        calculateScore
          {| cast_text := body; cast_author := who; cast_reactions := None;
             cast_replies := None; cast_likes := toplikes;
             cast_recasts := toprecasts; cast_timestamp := at_;
             cast_hash := id |} = 0).
Proof.
  split; [|reflexivity].
  intros cast. unfold calculateScore. rewrite !js_or_else_number.
  unfold likes_count, recasts_count, reply_count.
  destruct (cast_reactions cast) as [[[l|] [r|]]|];
    destruct (cast_replies cast) as [[[c|]|items]|];
    unfold array_length, opt_chain, count_or_zero;
    cbn -[Z.mul Z.add Z.of_nat]; lia.
Qed.

(** C10. [getAuthorName] returns the first of username, display name and
    fname that is present and not empty, else the placeholder ["FID-"]
    followed by the author's fid. The placeholder is never empty, so the
    operand ['Unknown'] that follows it is never the result of the chain:
    whatever stands in its place, the value is the same. A cast with no
    author yields ["FID-undefined"]. *)
Theorem getAuthorName_fallback_chain :
  (forall cast : Cast,
     getAuthorName cast =
       match present_name (cast_author cast ?. username) with
       | Some name => name
       | None =>
           match present_name (cast_author cast ?. display_name) with
           | Some name => name
           | None =>
               match present_name (cast_author cast ?. fname) with
               | Some name => name
               | None => fid_placeholder cast
               end
           end
       end)
  /\ (forall cast : Cast, truthy (fid_placeholder cast) = true)
  /\ (forall (cast : Cast) (last : string),
        (cast_author cast ?. username
           ||| cast_author cast ?. display_name
           ||| cast_author cast ?. fname
           ||! fid_placeholder cast) ||| last
        = getAuthorName cast)
  /\ (forall body reactions replies toplikes toprecasts at_ id,
        getAuthorName
          {| cast_text := body; cast_author := None;
             cast_reactions := reactions; cast_replies := replies;
             cast_likes := toplikes; cast_recasts := toprecasts;
             cast_timestamp := at_; cast_hash := id |} = "FID-undefined").
Proof.
  assert (Hchain : forall (cast : Cast) (last : string),
    (cast_author cast ?. username
       ||| cast_author cast ?. display_name
       ||| cast_author cast ?. fname
       ||! fid_placeholder cast) ||| last
    = match present_name (cast_author cast ?. username) with
      | Some name => name
      | None =>
          match present_name (cast_author cast ?. display_name) with
          | Some name => name
          | None =>
              match present_name (cast_author cast ?. fname) with
              | Some name => name
              | None => fid_placeholder cast
              end
          end
      end).
  { intros cast last.
    rewrite js_or_else_name, !js_or_names.
    destruct (present_name (cast_author cast ?. username)) as [[|c s]|] eqn:H1;
      [destruct (cast_author cast ?. username) as [[|? ?]|]; discriminate
      | reflexivity |].
    destruct (present_name (cast_author cast ?. display_name)) as [[|c s]|] eqn:H2;
      [destruct (cast_author cast ?. display_name) as [[|? ?]|]; discriminate
      | reflexivity |].
    destruct (present_name (cast_author cast ?. fname)) as [[|c s]|] eqn:H3;
      [destruct (cast_author cast ?. fname) as [[|? ?]|]; discriminate
      | reflexivity |].
    reflexivity. }
  split; [|split; [|split]].
  - intros cast. apply (Hchain cast "Unknown").
  - reflexivity.
  - intros cast last. unfold getAuthorName. fold (fid_placeholder cast).
    now rewrite !Hchain.
  - reflexivity.
Qed.

(** ** The window and the ranking of a channel *)

(** C1, as amended. Let a channel aggregation start at the instant [now]
    (the clock of [w], with [now] - 48 h a valid date) and let its loop over
    the roster collect the casts [fetched]. The aggregation keeps exactly the
    casts of [fetched] whose timestamp is a valid date at or after
    [now] - 48 h, the bound included, and returns the first five of their
    ranking. There is no upper bound: a cast dated after [now] is kept. A
    cast whose timestamp is missing, does not parse, or is earlier than
    [now] - 48 h is dropped, and every record of the result is built from a
    kept cast. *)
Theorem window_filter_lower_bound_only
    (Date_parse : string -> option Z) (client : NeynarClient)
    (users : ChannelUsers) (ch : string) (w : World)
    (fetched : list Cast) (w1 : World) :
  Z.abs (clock w - 172800000) <= 8640000000000000 ->
  for_of (slice0 4 (get_property users ch ||! [])) (process_user client) [] w
  = (Ok (map Some fetched), w1) ->
  let kept := filter (dated_since Date_parse (clock w - 172800000)) fetched in
  let result := slice0 5 (Array_sort by_score (map to_record kept)) in
  (forall c, In c kept <->
     In c fetched /\
     exists t, new_Date Date_parse (cast_timestamp c) = Some t
               /\ clock w - 172800000 <= t)
  /\ fetchChannelCasts_try Date_parse client users ch w = (Ok result, w1)
  /\ fetchChannelCasts Date_parse client users ch w = (Ok result, w1)
  /\ (forall r, In r result -> exists c, In c kept /\ r = to_record c).
Proof.
  intros Hvalid Hloop kept result.
  set (start := clock w - 172800000) in *.
  assert (Hsame : filter (in_window Date_parse (TimeClip start)) fetched = kept).
  { apply filter_ext. intros c. unfold in_window, dated_since, TimeClip, Date_ge.
    destruct (Z.leb_spec (Z.abs start) 8640000000000000); [reflexivity | lia]. }
  destruct (fetchChannelCasts_eq Date_parse client users ch w)
    as (allCasts & w1' & Hloop' & Htry & Hres).
  rewrite Hloop in Hloop'. injection Hloop' as <- <-.
  change (48 * 60 * 60 * 1000) with 172800000 in Htry, Hres.
  fold start in Htry, Hres.
  unfold recent_casts in Htry, Hres.
  rewrite filter_items_casts, Hsame in Htry, Hres.
  split; [|split; [exact Htry | split; [exact Hres|]]].
  - intros c. unfold kept. rewrite filter_In. unfold dated_since.
    destruct (new_Date Date_parse (cast_timestamp c)) as [t|].
    + rewrite Z.leb_le. split.
      * intros [Hin Hle]. split; [exact Hin|]. exists t. auto.
      * intros [Hin (t' & [= <-] & Hle)]. auto.
    + split; [intros [_ H]; discriminate | intros [_ (t & H & _)]; discriminate].
  - intros r Hr. unfold result in Hr. apply slice0_In in Hr.
    apply (Permutation_in _ (Permutation_sym (Array_sort_perm _))) in Hr.
    apply in_map_iff in Hr. destruct Hr as (c & <- & Hc). eauto.
Qed.

Lemma window_filter_lower_bound_only_witness :
  let fetched :=
    [Examples.future_cast; Examples.legacy_post;
     Examples.post (Examples.user "dwr" 3) "old" 9 9 9 "2024-12-30T00:00:00.000Z";
     Examples.bare_cast] in
  let w1 :=
    after_delay 2000
      (after_call MoreExamples.client_window (EvFetch 3 25) Examples.w0) in
  let kept :=
    filter (dated_since IsoDate.parse (clock Examples.w0 - 172800000)) fetched in
  let result := slice0 5 (Array_sort by_score (map to_record kept)) in
  kept = [Examples.future_cast; Examples.legacy_post]
  /\ (forall c, In c kept <->
         In c fetched /\
         exists t, new_Date IsoDate.parse (cast_timestamp c) = Some t
                   /\ clock Examples.w0 - 172800000 <= t)
  /\ fetchChannelCasts_try IsoDate.parse MoreExamples.client_window
       CHANNEL_USERS "/higher" Examples.w0 = (Ok result, w1)
  /\ fetchChannelCasts IsoDate.parse MoreExamples.client_window
       CHANNEL_USERS "/higher" Examples.w0 = (Ok result, w1)
  /\ (forall r, In r result -> exists c, In c kept /\ r = to_record c).
Proof.
  split; [reflexivity|].
  apply (window_filter_lower_bound_only IsoDate.parse MoreExamples.client_window
           CHANNEL_USERS "/higher" Examples.w0).
  - vm_compute. discriminate.
  - reflexivity.
Defined.

(** Against C1 as stated: the only cast of fid 3 is dated 2030-01-01, five
    years after the instant at which the aggregation of "/higher" starts, and
    the channel result holds it. *)
Lemma future_cast_is_retained :
  exists t,
    new_Date IsoDate.parse (cast_timestamp Examples.future_cast) = Some t
    /\ clock Examples.w0 < t
    /\ fst (fetchChannelCasts IsoDate.parse Examples.client_future
              CHANNEL_USERS "/higher" Examples.w0)
       = Ok [to_record Examples.future_cast].
Proof.
  exists 1893456000000. repeat split.
Qed.

(** C3. For every channel, whatever the provider answers, the aggregation
    returns at most 5 records, in non-increasing order of score; they are the
    first 5 of the stable ranking of the records fetched for the channel:
    records of equal score keep their fetch order. *)
Theorem channel_casts_ranked
    (Date_parse : string -> option Z) (client : NeynarClient)
    (users : ChannelUsers) (ch : string) (w : World) :
  exists result w',
    fetchChannelCasts Date_parse client users ch w = (Ok result, w')
    /\ (List.length result <= 5)%nat
    /\ StronglySorted score_ge result
    /\ exists ranked,
         StableRanking (fetched_records Date_parse client users ch w) ranked
         /\ result = slice0 5 ranked.
Proof.
  destruct (fetchChannelCasts_eq Date_parse client users ch w)
    as (allCasts & w1 & Hloop & _ & Hres).
  eexists. exists w1. split; [exact Hres|].
  unfold fetched_records. rewrite Hloop. unfold recent_casts.
  destruct (filter_items _ allCasts) as [kept|e].
  - split; [apply slice0_length|].
    split; [apply slice0_sorted, Array_sort_sorted|].
    exists (Array_sort by_score (map to_record kept)).
    split; [apply Array_sort_ranking | reflexivity].
  - split; [simpl; lia|]. split; [constructor|].
    exists []. split; [|reflexivity].
    repeat split; constructor.
Qed.

(** ** The loop over the channels *)

Section Handler.

Variable Date_parse : string -> option Z.
Variable client : NeynarClient.
Variable users : ChannelUsers.

Lemma process_channel_eq (digest : Digest) (ch : string) (w : World) :
  exists cs w',
    fetchChannelCasts Date_parse client users ch w = (Ok cs, w')
    /\ process_channel Date_parse client users digest ch w =
       (Ok (digest ++ [{| channel := ch; casts := cs; error := None |}]), w').
Proof.
  destruct (fetchChannelCasts_eq Date_parse client users ch w)
    as (allCasts & w1 & _ & _ & Hres).
  eexists. exists w1. split; [exact Hres|].
  unfold process_channel, try_catch, bind. rewrite Hres. reflexivity.
Qed.

Lemma channels_loop_total (chs : list string) (digest : Digest) (w : World) :
  exists entries w',
    for_of chs (process_channel Date_parse client users) digest w
    = (Ok (digest ++ entries), w')
    /\ map channel entries = chs
    /\ Forall (fun e => error e = None) entries.
Proof.
  revert digest w. induction chs as [|ch chs IH]; intros digest w; simpl.
  - exists [], w. unfold ret. rewrite app_nil_r. auto.
  - destruct (process_channel_eq digest ch w) as (cs & w1 & _ & H1).
    unfold bind. rewrite H1.
    destruct (IH (digest ++ [{| channel := ch; casts := cs; error := None |}]) w1)
      as (entries & w2 & H2 & Hch & Herr).
    exists ({| channel := ch; casts := cs; error := None |} :: entries), w2.
    rewrite H2, <- app_assoc. simpl. rewrite Hch. auto.
Qed.

(** The "last updated" figure of a page built in [w]. *)
Lemma generateHTML_digest (digest : Digest) (stamp : option Z) (w : World) :
  generateHTML (Some digest) false stamp w =
  (match render_digest digest with
   | Ok texts =>
       Ok (DigestPage
             (if truthy stamp
              then option_map (fun t => (clock w - t) / 1000 / 60) stamp
              else None)
             digest texts)
   | Throw e => Throw e
   end, w).
Proof.
  unfold generateHTML. run_monad.
  destruct (truthy stamp); destruct (render_digest digest); reflexivity.
Qed.

(** A valid cache is served as it is and the world is left alone. *)
Lemma get_root_hit (refresh : option string) (cache : Cache)
    (digest : Digest) (t : Z) (w : World) :
  refresh <> Some "true" ->
  cache_data cache = Some digest ->
  cache_timestamp cache = Some t ->
  t <> 0 ->
  clock w - t < CACHE_DURATION ->
  get_root Date_parse client users refresh cache w =
  (match render_digest digest with
   | Ok texts => Ok (DigestPage (Some ((clock w - t) / 1000 / 60)) digest texts)
   | Throw e => Throw e
   end, cache, w).
Proof.
  intros Hr Hd Ht Hnz Hage. unfold get_root.
  assert (Hforce : match refresh with
                   | Some value => (value =? "true")%string
                   | None => false
                   end = false).
  { destruct refresh as [v|]; [|reflexivity].
    destruct (String.eqb_spec v "true"); [congruence | reflexivity]. }
  assert (Htruthy : truthy (Some t) = true).
  { unfold truthy, truthy_undefined, truthy, truthy_number.
    destruct (Z.eqb_spec t 0); [contradiction | reflexivity]. }
  rewrite Hforce, Hd, Ht, Htruthy. cbn [option_map].
  assert (Hlt : (clock w - t <? CACHE_DURATION) = true) by now apply Z.ltb_lt.
  rewrite Hlt. change (truthy (Some digest)) with true. cbn [negb andb].
  rewrite generateHTML_digest, Htruthy. reflexivity.
Qed.

(** Without a valid cache the handler runs the whole loop and stores what
    it built together with the instant at which it finished, before it
    builds the page. *)
Lemma get_root_miss (refresh : option string) (cache : Cache) (w : World) :
  (refresh = Some "true"
   \/ truthy (cache_data cache) = false
   \/ truthy (cache_timestamp cache) = false
   \/ exists t, cache_timestamp cache = Some t /\ CACHE_DURATION <= clock w - t) ->
  forall digest w',
    for_of (Object_keys users) (process_channel Date_parse client users) [] w
    = (Ok digest, w') ->
    get_root Date_parse client users refresh cache w =
    (match render_digest digest with
     | Ok texts =>
         Ok (DigestPage (if clock w' =? 0 then None else Some 0) digest texts)
     | Throw e => Throw e
     end,
     {| cache_data := Some digest; cache_timestamp := Some (clock w') |},
     w').
Proof.
  intros Hmiss digest w' Hloop. unfold get_root.
  match goal with
  | |- (if ?b then _ else _) = _ => assert (Hb : b = false)
  end.
  { destruct Hmiss as [-> | [H | [H | (t & Ht & Hage)]]].
    - reflexivity.
    - rewrite H. now rewrite andb_false_r.
    - rewrite H. now rewrite andb_false_r.
    - rewrite Ht. cbn [option_map].
      destruct (truthy (Some t)); [|now rewrite andb_false_r].
      assert (Hge : (clock w - t <? CACHE_DURATION) = false)
        by now apply Z.ltb_ge.
      rewrite Hge. now rewrite andb_false_r. }
  rewrite Hb, Hloop. cbn [cache_timestamp]. rewrite generateHTML_digest.
  unfold truthy, truthy_undefined, truthy, truthy_number. cbn [option_map].
  rewrite Z.sub_diag.
  destruct (render_digest digest); destruct (clock w' =? 0); reflexivity.
Qed.

(** Whatever page the handler answers with, it is the page of the digest
    that the cache holds afterwards. *)
Lemma get_root_page (refresh : option string) (cache : Cache) (w : World)
    (page : Html) (cache' : Cache) (w' : World) :
  get_root Date_parse client users refresh cache w = (Ok page, cache', w') ->
  exists minutes digest texts,
    page = DigestPage minutes digest texts
    /\ cache_data cache' = Some digest
    /\ render_digest digest = Ok texts.
Proof.
  unfold get_root.
  match goal with
  | |- (if ?b then _ else _) = _ -> _ => destruct b
  end.
  - destruct (cache_data cache) as [digest|] eqn:Hd.
    + rewrite generateHTML_digest.
      destruct (render_digest digest) as [texts|e] eqn:Hrender; [|discriminate].
      intros [= <- <- <-]. eexists. exists digest, texts. auto.
    + unfold generateHTML. run_monad.
      destruct (truthy (cache_timestamp cache)); discriminate.
  - destruct (channels_loop_total (Object_keys users) [] w)
      as (digest & w1 & Hloop & _).
    simpl app in Hloop. rewrite Hloop. rewrite generateHTML_digest.
    destruct (render_digest digest) as [texts|e] eqn:Hrender; [|discriminate].
    intros [= <- <- <-]. eexists. exists digest, texts. auto.
Qed.

(** The provider calls of one channel whose roster is numeric. *)
Lemma channel_calls (ch : string) (ids : list Z) (w : World)
    (cs : list CastRecord) (w' : World) method :
  get_property users ch ||! [] = map UNumber ids ->
  fetch_method client = Some method ->
  fetchChannelCasts Date_parse client users ch w = (Ok cs, w') ->
  provider_calls (trace w') =
  provider_calls (trace w) ++ map (fun fid => EvFetch fid 25) (firstn 4 ids).
Proof.
  intros Hids Hm Hres.
  destruct (fetchChannelCasts_eq Date_parse client users ch w)
    as (allCasts & w1 & Hloop & _ & Hres').
  rewrite Hres' in Hres. injection Hres as _ <-.
  rewrite Hids in Hloop. unfold slice0 in Hloop. rewrite firstn_map in Hloop.
  exact (roster_calls client _ _ _ _ _ method Hm Hloop).
Qed.

Lemma channels_calls (ids_of : string -> list Z) (chs : list string) method :
  fetch_method client = Some method ->
  (forall ch, In ch chs -> get_property users ch ||! [] = map UNumber (ids_of ch)) ->
  forall digest w digest' w',
    for_of chs (process_channel Date_parse client users) digest w
    = (Ok digest', w') ->
    provider_calls (trace w') =
    provider_calls (trace w)
      ++ flat_map (fun ch => map (fun fid => EvFetch fid 25)
                               (firstn 4 (ids_of ch))) chs.
Proof.
  intros Hm. induction chs as [|ch chs IH]; intros Hids digest w digest' w'; simpl.
  - unfold ret. intros [= _ <-]. now rewrite app_nil_r.
  - destruct (process_channel_eq digest ch w) as (cs & w1 & Hf & Hp).
    unfold bind. rewrite Hp. intros Hrest.
    apply IH in Hrest; [|intros; apply Hids; now right].
    rewrite Hrest.
    rewrite (channel_calls ch (ids_of ch) w cs w1 method
               (Hids ch (or_introl eq_refl)) Hm Hf).
    now rewrite app_assoc.
Qed.

End Handler.

(** Two authors with casts scoring 10, 50, 5 and 30: the ranking is
    50, 30, 10, 5. *)
Example ranking_of_two_authors :
  match fst (fetchChannelCasts IsoDate.parse Examples.client_scenario
               CHANNEL_USERS "/fc-devs" Examples.w0) with
  | Ok result => map score result = [50; 30; 10; 5]
  | Throw _ => False
  end.
Proof. reflexivity. Qed.

(** A channel without authors gets an entry with no cast and no error, and
    the provider is not called. *)
Example channel_without_authors :
  process_channel IsoDate.parse Examples.client_scenario [("/quiet", [])] []
    "/quiet" Examples.w0
  = (Ok [{| channel := "/quiet"; casts := []; error := None |}], Examples.w0).
Proof. reflexivity. Qed.

(** ** The cache *)

(** C4. When a call to the handler has been answered and a second call
    comes without [refresh=true] while the cache timestamp is less than 30
    minutes old, the second call answers with the digest that the first one
    answered with and that the cache holds, leaves the cache as it is, and
    does nothing to the world: no provider call, no delay. (The timestamp is
    a clock reading, hence not 0, the epoch itself.) *)
Theorem second_call_within_ttl_served_from_cache
    (Date_parse : string -> option Z) (client : NeynarClient)
    (users : ChannelUsers)
    (refresh1 : option string) (cache0 : Cache) (w1 : World)
    (page1 : Html) (cache1 : Cache) (w1' : World)
    (refresh2 : option string) (w2 : World) (t : Z) :
  get_root Date_parse client users refresh1 cache0 w1 = (Ok page1, cache1, w1') ->
  refresh2 <> Some "true" ->
  cache_timestamp cache1 = Some t ->
  t <> 0 ->
  clock w2 - t < CACHE_DURATION ->
  exists digest texts minutes1,
    page1 = DigestPage minutes1 digest texts
    /\ cache_data cache1 = Some digest
    /\ get_root Date_parse client users refresh2 cache1 w2 =
       (Ok (DigestPage (Some ((clock w2 - t) / 1000 / 60)) digest texts),
        cache1, w2).
Proof.
  intros Hfirst Hr Ht Hnz Hage.
  destruct (get_root_page Date_parse client users _ _ _ _ _ _ Hfirst)
    as (minutes1 & digest & texts & Hpage & Hdata & Hrender).
  exists digest, texts, minutes1. repeat split; auto.
  rewrite (get_root_hit Date_parse client users refresh2 cache1 digest t w2)
    by assumption.
  now rewrite Hrender.
Qed.

Lemma second_call_within_ttl_served_from_cache_witness :
  exists digest texts minutes1,
    Examples.first_page = DigestPage minutes1 digest texts
    /\ cache_data Examples.first_cache = Some digest
    /\ get_root IsoDate.parse Examples.client_scenario CHANNEL_USERS None
         Examples.first_cache Examples.ten_minutes_later =
       (Ok (DigestPage
              (Some ((clock Examples.ten_minutes_later - 1735862414840) / 1000 / 60))
              digest texts),
        Examples.first_cache, Examples.ten_minutes_later).
Proof.
  apply (second_call_within_ttl_served_from_cache
           IsoDate.parse Examples.client_scenario CHANNEL_USERS
           None empty_cache Examples.w0
           Examples.first_page Examples.first_cache (snd Examples.first_call)
           None Examples.ten_minutes_later 1735862414840).
  - vm_compute. reflexivity.
  - discriminate.
  - vm_compute. reflexivity.
  - discriminate.
  - vm_compute. reflexivity.
Defined.

(** C5. With [refresh=true] the handler ignores the cache, whatever it
    holds: it runs the loop over all the channels, one entry per channel in
    configuration order, and replaces the cache by the digest it built
    together with the instant at which it finished; the page answered is
    the page of that digest. For [CHANNEL_USERS] and a client that has a
    fetch method, the provider calls of the pass are one fetch per
    configured author, in order. *)
Theorem forced_refresh_refetches_and_overwrites
    (Date_parse : string -> option Z) (client : NeynarClient)
    (users : ChannelUsers) (cache : Cache) (w : World) :
  exists digest w',
    for_of (Object_keys users) (process_channel Date_parse client users) [] w
    = (Ok digest, w')
    /\ map channel digest = Object_keys users
    /\ get_root Date_parse client users (Some "true") cache w =
       (match render_digest digest with
        | Ok texts =>
            Ok (DigestPage (if clock w' =? 0 then None else Some 0) digest texts)
        | Throw e => Throw e
        end,
        {| cache_data := Some digest; cache_timestamp := Some (clock w') |},
        w')
    /\ (forall method,
          users = CHANNEL_USERS ->
          fetch_method client = Some method ->
          provider_calls (trace w') = provider_calls (trace w) ++ full_refetch).
Proof.
  destruct (channels_loop_total Date_parse client users (Object_keys users) [] w)
    as (digest & w' & Hloop & Hch & _).
  simpl app in Hloop.
  exists digest, w'. split; [exact Hloop|]. split; [exact Hch|]. split.
  - apply get_root_miss; [now left | exact Hloop].
  - intros method -> Hm.
    assert (Hids : forall ch, In ch (Object_keys CHANNEL_USERS) ->
              get_property CHANNEL_USERS ch ||! []
              = map UNumber (numeric_ids (get_property CHANNEL_USERS ch ||! []))).
    { intros ch [<-|[<-|[<-|[<-|[]]]]]; reflexivity. }
    rewrite (channels_calls Date_parse client CHANNEL_USERS
               (fun ch => numeric_ids (get_property CHANNEL_USERS ch ||! []))
               (Object_keys CHANNEL_USERS) method Hm Hids [] w digest w' Hloop).
    reflexivity.
Qed.

Lemma forced_refresh_refetches_and_overwrites_witness :
  exists digest w',
    snd (fst (get_root IsoDate.parse Examples.client_scenario CHANNEL_USERS
                (Some "true") Examples.first_cache Examples.ten_minutes_later))
    = {| cache_data := Some digest; cache_timestamp := Some (clock w') |}
    /\ provider_calls (trace w') =
       provider_calls (trace Examples.ten_minutes_later)
         ++ map (fun fid => EvFetch fid 25)
              [1325; 15983; 99; 3621; 8152; 3; 221255].
Proof.
  destruct (forced_refresh_refetches_and_overwrites
              IsoDate.parse Examples.client_scenario CHANNEL_USERS
              Examples.first_cache Examples.ten_minutes_later)
    as (digest & w' & _ & _ & Hget & Hcalls).
  exists digest, w'. split; [now rewrite Hget|].
  exact (Hcalls _ eq_refl eq_refl).
Defined.

(** ** Failures *)

(** The catch of the handler's loop (lines 431-434), the one place that
    writes an error description, is never reached: an error raised while a
    channel is aggregated stops at the catch inside [fetchChannelCasts], and
    the channel's entry has an empty cast list and a [null] error. The
    entries built before are left as they are, and a pass over any list of
    channels ends with one entry per channel, in order. *)
Lemma channel_error_gives_empty_entry
    (Date_parse : string -> option Z) (client : NeynarClient)
    (users : ChannelUsers) :
  (forall (digest : Digest) (ch : string) (w : World),
     process_channel Date_parse client users digest ch w =
     (Ok (digest ++
          [{| channel := ch;
              casts := match fst (fetchChannelCasts_try Date_parse client users ch w) with
                       | Ok recentCasts => recentCasts
                       | Throw _ => []
                       end;
              error := None |}]),
      snd (fetchChannelCasts_try Date_parse client users ch w)))
  /\ (forall (chs : list string) (w : World),
        exists digest w',
          for_of chs (process_channel Date_parse client users) [] w
          = (Ok digest, w')
          /\ map channel digest = chs
          /\ Forall (fun entry => error entry = None) digest).
Proof.
  split.
  - intros digest ch w.
    destruct (fetchChannelCasts_eq Date_parse client users ch w)
      as (allCasts & w1 & _ & Htry & Hres).
    unfold process_channel, try_catch, bind. rewrite Hres, Htry. reflexivity.
  - intros chs w.
    destruct (channels_loop_total Date_parse client users chs [] w)
      as (digest & w' & Hloop & Hch & Herr).
    exists digest, w'. auto.
Qed.

(** C6, at a failing input. The response for fid 3 holds a [null] and the
    aggregation of "/higher" throws a TypeError in its filter. The entry of
    "/higher" gets an empty cast list but no error description, where the
    handler's own catch would have written [error.message]; a whole pass
    ends with no error description in any entry, the other channels keeping
    their casts. *)
Theorem aggregation_error_leaves_no_description :
  fst (fetchChannelCasts_try IsoDate.parse Examples.client_null_item
         CHANNEL_USERS "/higher" Examples.w0)
  = Throw (TypeError_null "timestamp")
  /\ fst (process_channel IsoDate.parse Examples.client_null_item
            CHANNEL_USERS [] "/higher" Examples.w0)
     = Ok [{| channel := "/higher"; casts := []; error := None |}]
  /\ match fst (fst (get_root IsoDate.parse Examples.client_null_item
                       CHANNEL_USERS None empty_cache Examples.w0)) with
     | Ok (DigestPage _ digest _) =>
         map error digest = [None; None; None; None]
         /\ map (fun entry => List.length (casts entry)) digest = [3; 2; 0; 1]%nat
     | _ => False
     end.
Proof.
  vm_compute. repeat split.
Qed.

(** C7. In a channel's roster (any number of authors), let the provider fail
    for one author [u] when its turn comes: the name does not resolve, or
    the fetch is rejected; the authors before and after [u] fail or are
    answered as [roster_run] tells. Then [u] adds nothing to the collected
    casts and the loop goes on: the casts collected are exactly the casts
    answered for the other authors, and the channel result is their
    ranking. So a cast answered for another author that passes the window
    filter is in the channel result, unless five records scoring at least as
    much fill it (the collected casts holding no [null]). *)
Theorem failed_author_is_skipped
    (Date_parse : string -> option Z) (client : NeynarClient)
    (users : ChannelUsers) (ch : string)
    (before : list UserIdentifier) (u : UserIdentifier)
    (after : list UserIdentifier)
    (w : World) (items1 : list CastItem) (w1 w2 : World)
    (items2 : list CastItem) (w3 : World) :
  slice0 4 (get_property users ch ||! []) = before ++ u :: after ->
  roster_run client before w items1 w1 ->
  author_fails client u w1 w2 ->
  roster_run client after w2 items2 w3 ->
  (forall acc, process_user client acc u w1 = (Ok acc, w2))
  /\ for_of (before ++ u :: after) (process_user client) [] w
     = (Ok (items1 ++ items2), w3)
  /\ exists result,
       fetchChannelCasts Date_parse client users ch w = (Ok result, w3)
       /\ result
          = match recent_casts Date_parse
                    (TimeClip (clock w - 48 * 60 * 60 * 1000))
                    (items1 ++ items2) with
            | Ok recentCasts => recentCasts
            | Throw _ => []
            end
       /\ (~ In None (items1 ++ items2) ->
           forall c,
             In (Some c) (items1 ++ items2) ->
             in_window Date_parse (TimeClip (clock w - 48 * 60 * 60 * 1000)) c
             = true ->
             In (to_record c) result
             \/ (List.length result = 5%nat
                 /\ Forall (fun r => score (to_record c) <= score r) result)).
Proof.
  intros Hroster Hbefore Hfail Hafter.
  assert (Hloop : for_of (before ++ u :: after) (process_user client) [] w
                  = (Ok (items1 ++ items2), w3)).
  { rewrite for_of_app, (roster_run_loop client before w items1 w1 Hbefore []).
    simpl app. simpl for_of. unfold bind.
    rewrite (process_user_failure client items1 u w1 w2 Hfail).
    apply (roster_run_loop client after w2 items2 w3 Hafter). }
  split; [intros acc; now apply process_user_failure|].
  split; [exact Hloop|].
  destruct (fetchChannelCasts_eq Date_parse client users ch w)
    as (allCasts & w' & Hloop' & _ & Hres).
  rewrite Hroster, Hloop in Hloop'. injection Hloop' as <- <-.
  eexists. split; [exact Hres|]. split; [reflexivity|].
  intros Hnull c Hc Hw.
  destruct (items_without_null _ Hnull) as (fetched & E). rewrite E in *.
  assert (Hin : In c fetched).
  { apply in_map_iff in Hc. destruct Hc as (c' & [= ->] & Hc). exact Hc. }
  destruct (recent_casts_member Date_parse _ fetched c Hin Hw)
    as (result & -> & Hmember).
  exact Hmember.
Qed.

Lemma failed_author_is_skipped_witness :
  let client := Examples.client_one_down in
  let cast := Examples.post (Examples.user "someone" 8152) "hello" 2 1 0
                Examples.yesterday in
  let w2 := after_call client (EvFetch 3621 25) Examples.w0 in
  let w3 := after_delay 2000 (after_call client (EvFetch 8152 25) w2) in
  let items := [] ++ (response_items (Examples.response [Some cast]) ++ []) in
  fst (fetchChannelCasts IsoDate.parse client CHANNEL_USERS "/fc-devs" Examples.w0)
  = Ok [to_record cast]
  /\ (forall acc, process_user client acc (UNumber 3621) Examples.w0 = (Ok acc, w2))
  /\ for_of ([] ++ UNumber 3621 :: [UNumber 8152]) (process_user client) []
       Examples.w0
     = (Ok items, w3)
  /\ exists result,
       fetchChannelCasts IsoDate.parse client CHANNEL_USERS "/fc-devs" Examples.w0
       = (Ok result, w3)
       /\ result
          = match recent_casts IsoDate.parse
                    (TimeClip (clock Examples.w0 - 48 * 60 * 60 * 1000)) items with
            | Ok recentCasts => recentCasts
            | Throw _ => []
            end
       /\ (~ In None items ->
           forall c,
             In (Some c) items ->
             in_window IsoDate.parse
               (TimeClip (clock Examples.w0 - 48 * 60 * 60 * 1000)) c = true ->
             In (to_record c) result
             \/ (List.length result = 5%nat
                 /\ Forall (fun r => score (to_record c) <= score r) result)).
Proof.
  intros client cast w2 w3 items. split; [reflexivity|].
  apply (failed_author_is_skipped IsoDate.parse client CHANNEL_USERS "/fc-devs"
           [] (UNumber 3621) [UNumber 8152] Examples.w0 [] Examples.w0 w2
           (response_items (Examples.response [Some cast]) ++ []) w3).
  - reflexivity.
  - apply run_done.
  - apply (fetch_failed client (UNumber 3621) 3621 Examples.w0 eq_refl).
    eexists. exists Examples.rate_limited. split; reflexivity.
  - eapply run_answered; [|apply run_done].
    eapply (fetch_answered client (UNumber 8152) 8152 w2); reflexivity.
Defined.

(** C8, at a failing input. The provider rejects the fetch for fid 1325, the
    first author of "/farcaster": the fetch for fid 15983 is issued next,
    with no delay in between. *)
Theorem failed_fetch_skips_cooldown :
  trace (snd (fetchChannelCasts IsoDate.parse Examples.client_one_down
                CHANNEL_USERS "/farcaster" Examples.w0))
  = [EvFetch 1325 25; EvFetch 15983 25; EvDelay 2000;
     EvFetch 99 25; EvDelay 2000].
Proof. reflexivity. Qed.

(** C9, at a failing input. A cast that carries its three likes in the
    top-level [likes] array and has no [reactions] object gets a record with
    [likes] = 3 and [score] = 0: the score is not likes + 2 * replies +
    3 * recasts of the record's own counts. *)
Theorem legacy_counts_are_not_scored :
  let record := to_record Examples.legacy_post in
  fst (fetchChannelCasts IsoDate.parse Examples.client_legacy CHANNEL_USERS
         "/higher" Examples.w0) = Ok [record]
  /\ likes record = 3 /\ replies record = 0 /\ recasts record = 0
  /\ score record = 0
  /\ score record <> likes record + 2 * replies record + 3 * recasts record.
Proof.
  vm_compute. repeat split. discriminate.
Qed.

(** * Further results *)

(** ** escapeHtml *)

Lemma list_ascii_of_string_app (a b : string) :
  list_ascii_of_string (a ++ b)
  = list_ascii_of_string a ++ list_ascii_of_string b.
Proof.
  induction a as [|c a IH]; simpl; [reflexivity | now rewrite IH].
Qed.

Lemma escape_char_safe (c : ascii) :
  Forall (fun x => is_markup_char x = false)
    (list_ascii_of_string (escape_char c)).
Proof.
  destruct c as [[] [] [] [] [] [] [] []]; repeat constructor.
Qed.

(** Each character is replaced by its entity or left alone; only the
    ampersand starts an entity. *)
Lemma escape_char_cases (c : ascii) :
  (c = "&"%char /\ escape_char c = "&amp;")
  \/ (c = "<"%char /\ escape_char c = "&lt;")
  \/ (c = ">"%char /\ escape_char c = "&gt;")
  \/ (c = "034"%char /\ escape_char c = "&quot;")
  \/ (c = "'"%char /\ escape_char c = "&#039;")
  \/ (c <> "&"%char /\ escape_char c = String c EmptyString).
Proof.
  destruct c as [[] [] [] [] [] [] [] []];
    first [ left; split; reflexivity
          | right; left; split; reflexivity
          | right; right; left; split; reflexivity
          | right; right; right; left; split; reflexivity
          | right; right; right; right; left; split; reflexivity
          | right; right; right; right; right; split;
            [discriminate | reflexivity] ].
Qed.

(** X1. Whatever the text, the escaped text holds none of the characters
    [<], [>], double quote and apostrophe: a cast text cannot open a tag or
    close an attribute of the page. *)
Theorem escapeHtml_leaves_no_markup (s : string) :
  exists escaped,
    escapeHtml (Some s) = Ok escaped
    /\ Forall (fun c => is_markup_char c = false) (list_ascii_of_string escaped).
Proof.
  exists (escape_string s). split; [reflexivity|].
  induction s as [|c s IH]; simpl.
  - constructor.
  - rewrite list_ascii_of_string_app. apply Forall_app. split.
    + apply escape_char_safe.
    + exact IH.
Qed.

(** X2. [escapeHtml] loses nothing: two texts with the same escaped form
    are the same text. *)
Theorem escapeHtml_injective (s1 s2 : string) :
  escapeHtml (Some s1) = escapeHtml (Some s2) -> s1 = s2.
Proof.
  unfold escapeHtml. intros [= H]. revert s2 H.
  induction s1 as [|a s1 IH]; intros [|b s2] H; simpl in H.
  - reflexivity.
  - destruct (escape_char_cases b) as [[_ E]|[[_ E]|[[_ E]|[[_ E]|[[_ E]|[_ E]]]]]];
      rewrite E in H; discriminate.
  - destruct (escape_char_cases a) as [[_ E]|[[_ E]|[[_ E]|[[_ E]|[[_ E]|[_ E]]]]]];
      rewrite E in H; discriminate.
  - destruct (escape_char_cases a)
      as [[Ha Ea]|[[Ha Ea]|[[Ha Ea]|[[Ha Ea]|[[Ha Ea]|[Ha Ea]]]]]];
    destruct (escape_char_cases b)
      as [[Hb Eb]|[[Hb Eb]|[[Hb Eb]|[[Hb Eb]|[[Hb Eb]|[Hb Eb]]]]]];
    rewrite Ea, Eb in H; simpl in H;
    try discriminate;
    try (injection H as H; subst; f_equal; now apply IH);
    try (injection H as H1 H2; subst; first [contradiction | congruence
         | (f_equal; now apply IH)]).
Qed.

Lemma escapeHtml_injective_witness : "a<b & c" = "a<b & c".
Proof.
  apply (escapeHtml_injective "a<b & c" "a<b & c"). reflexivity.
Defined.

(** ** Author names and counts of a record *)

Lemma present_name_nonempty (o : option string) (s : string) :
  present_name o = Some s -> s <> "".
Proof.
  destruct o as [[|c r]|]; simpl; intros [= <-]; discriminate.
Qed.

(** X3. The author name of a record is never the empty string, so the
    page's fallback [cast.author || 'unknown'] always shows the name that
    [getAuthorName] found. *)
Theorem record_author_never_empty (cast : Cast) :
  getAuthorName cast <> ""
  /\ author (to_record cast) ||| "unknown" = getAuthorName cast.
Proof.
  assert (H : getAuthorName cast <> "").
  { unfold getAuthorName.
    rewrite js_or_else_name.
    destruct (present_name _) as [s|] eqn:Hp.
    - apply present_name_nonempty in Hp.
      unfold js_or, truthy, truthy_string.
      destruct (String.eqb_spec s ""); [contradiction | exact Hp].
    - discriminate. }
  split; [exact H|].
  simpl author. unfold js_or, truthy, truthy_string.
  destruct (String.eqb_spec (getAuthorName cast) ""); [contradiction | reflexivity].
Qed.

Lemma js_or_undefined_number (a : option Z) : a ||| None ||! 0 = a ||! 0.
Proof.
  destruct a as [n|]; [|reflexivity].
  unfold js_or, js_or_else, truthy, truthy_undefined, truthy, truthy_number.
  destruct (n =? 0) eqn:E; simpl; [|rewrite E]; reflexivity.
Qed.

(** X4. For a cast in the provider's current format (no top-level [likes]
    or [recasts] array, [replies] not an array) the record's score is
    likes + 2 * replies + 3 * recasts of the counts the record shows. *)
Theorem score_matches_record_counts (cast : Cast) :
  cast_likes cast = None ->
  cast_recasts cast = None ->
  cast_replies cast ?. replies_length = None ->
  score (to_record cast)
  = likes (to_record cast) + 2 * replies (to_record cast)
    + 3 * recasts (to_record cast).
Proof.
  intros Hl Hr Hp. cbn [to_record score likes replies recasts].
  rewrite Hl, Hr, Hp.
  change (array_length None) with (@None Z).
  rewrite !js_or_undefined_number. unfold calculateScore. lia.
Qed.

Lemma score_matches_record_counts_witness :
  let cast := Examples.post (Examples.user "dwr" 3) "gm" 4 2 1 Examples.yesterday in
  score (to_record cast)
  = likes (to_record cast) + 2 * replies (to_record cast)
    + 3 * recasts (to_record cast).
Proof.
  apply (score_matches_record_counts
           (Examples.post (Examples.user "dwr" 3) "gm" 4 2 1 Examples.yesterday));
    reflexivity.
Defined.

(** ** What the truncation to five keeps *)

(** X5. The five records kept are the best ones: a cast that passed the
    window filter either has its record in the result or scores no more than
    every record of the result. *)
Theorem dropped_casts_score_no_more
    (Date_parse : string -> option Z) (oneDayAgo : option Z)
    (fetched : list Cast) :
  exists result,
    recent_casts Date_parse oneDayAgo (map Some fetched) = Ok result
    /\ Forall
         (fun cast =>
            In (to_record cast) result
            \/ Forall (fun r => score (to_record cast) <= score r) result)
         (filter (in_window Date_parse oneDayAgo) fetched).
Proof.
  unfold recent_casts. rewrite filter_items_casts.
  set (kept := filter (in_window Date_parse oneDayAgo) fetched).
  set (ranked := Array_sort by_score (map to_record kept)).
  exists (slice0 5 ranked). split; [reflexivity|].
  apply Forall_forall. intros cast Hc.
  assert (Hin : In (to_record cast) ranked).
  { apply (Permutation_in _ (Array_sort_perm _)). now apply in_map. }
  unfold slice0. rewrite <- (firstn_skipn 5 ranked) in Hin.
  apply in_app_or in Hin. destruct Hin as [Hin|Hin]; [now left|right].
  apply Forall_forall. intros r Hr.
  assert (Hs : StronglySorted score_ge (firstn 5 ranked ++ skipn 5 ranked)).
  { rewrite firstn_skipn. apply Array_sort_sorted. }
  exact (sorted_app_ge _ _ Hs r Hr (to_record cast) Hin).
Qed.

(** X6. The result holds five records when five or more casts passed the
    window filter, and a record for each of them when fewer did. *)
Theorem result_length_is_min_five
    (Date_parse : string -> option Z) (oneDayAgo : option Z)
    (fetched : list Cast) :
  exists result,
    recent_casts Date_parse oneDayAgo (map Some fetched) = Ok result
    /\ List.length result
       = Nat.min 5 (List.length (filter (in_window Date_parse oneDayAgo) fetched)).
Proof.
  unfold recent_casts. rewrite filter_items_casts.
  eexists. split; [reflexivity|].
  unfold slice0. rewrite length_firstn.
  rewrite <- (Permutation_length (Array_sort_perm _)), length_map.
  reflexivity.
Qed.

Lemma filter_items_null (keep : Cast -> bool) (items : list CastItem) :
  In None items -> filter_items keep items = Throw (TypeError_null "timestamp").
Proof.
  induction items as [|[c|] items IH]; simpl; intros H.
  - contradiction.
  - destruct H as [H|H]; [discriminate|]. now rewrite (IH H).
  - reflexivity.
Qed.

(** X7. One [null] among the casts collected for a channel, from any of its
    authors, empties the channel: the filter throws on it and the
    aggregation returns no cast at all, whatever the other casts are. *)
Theorem null_item_empties_channel
    (Date_parse : string -> option Z) (client : NeynarClient)
    (users : ChannelUsers) (ch : string) (w : World)
    (allCasts : list CastItem) (w1 : World) :
  for_of (slice0 4 (get_property users ch ||! [])) (process_user client) [] w
  = (Ok allCasts, w1) ->
  In None allCasts ->
  fetchChannelCasts_try Date_parse client users ch w
  = (Throw (TypeError_null "timestamp"), w1)
  /\ fetchChannelCasts Date_parse client users ch w = (Ok [], w1).
Proof.
  intros Hloop Hnull.
  destruct (fetchChannelCasts_eq Date_parse client users ch w)
    as (allCasts' & w1' & Hloop' & Htry & Hres).
  rewrite Hloop in Hloop'. injection Hloop' as <- <-.
  rewrite Htry, Hres. unfold recent_casts.
  rewrite (filter_items_null _ allCasts Hnull). auto.
Qed.

Lemma null_item_empties_channel_witness :
  fetchChannelCasts_try IsoDate.parse Examples.client_null_item CHANNEL_USERS
    "/higher" Examples.w0
  = (Throw (TypeError_null "timestamp"),
     after_delay 2000 (after_call Examples.client_null_item (EvFetch 3 25) Examples.w0))
  /\ fetchChannelCasts IsoDate.parse Examples.client_null_item CHANNEL_USERS
       "/higher" Examples.w0
     = (Ok [],
        after_delay 2000 (after_call Examples.client_null_item (EvFetch 3 25) Examples.w0)).
Proof.
  apply (null_item_empties_channel IsoDate.parse Examples.client_null_item
           CHANNEL_USERS "/higher" Examples.w0 [None]).
  - reflexivity.
  - now left.
Defined.

(** ** An invariant of the cache *)

Section Invariant.

Variable Date_parse : string -> option Z.
Variable client : NeynarClient.
Variable users : ChannelUsers.

Lemma fetchChannelCasts_ranked (ch : string) (w : World) :
  exists cs w',
    fetchChannelCasts Date_parse client users ch w = (Ok cs, w')
    /\ (List.length cs <= 5)%nat
    /\ StronglySorted score_ge cs.
Proof.
  destruct (fetchChannelCasts_eq Date_parse client users ch w)
    as (allCasts & w1 & _ & _ & Hres).
  eexists. exists w1. split; [exact Hres|].
  unfold recent_casts. destruct (filter_items _ allCasts) as [kept|e].
  - split; [apply slice0_length | apply slice0_sorted, Array_sort_sorted].
  - split; [simpl; lia | constructor].
Qed.

Lemma channels_loop_ranked (chs : list string) (digest : Digest) (w : World) :
  Forall entry_ranked digest ->
  exists digest' w',
    for_of chs (process_channel Date_parse client users) digest w
    = (Ok digest', w')
    /\ Forall entry_ranked digest'.
Proof.
  revert digest w. induction chs as [|ch chs IH]; intros digest w Hd; simpl.
  - exists digest, w. auto.
  - destruct (fetchChannelCasts_ranked ch w) as (cs & w1 & Hf & Hlen & Hs).
    unfold bind at 1, process_channel at 1, try_catch, bind. rewrite Hf.
    unfold ret at 1.
    apply IH. apply Forall_app. split; [exact Hd|].
    constructor; [|constructor]. repeat split; assumption.
Qed.

End Invariant.

(** X8. Every call to the handler keeps the cache well formed: if each entry
    of the cached digest has at most 5 casts, in non-increasing order of
    score, and no error description, the same holds of the cache after the
    call, whether it served the cache or rebuilt it; the empty cache of a
    fresh process is well formed. *)
Theorem handler_keeps_cache_ranked
    (Date_parse : string -> option Z) (client : NeynarClient)
    (users : ChannelUsers) (refresh : option string) (cache : Cache)
    (w : World) :
  cache_ranked empty_cache
  /\ (cache_ranked cache ->
      cache_ranked
        (snd (fst (get_root Date_parse client users refresh cache w)))).
Proof.
  split; [exact I|]. intros Hc. unfold get_root.
  match goal with
  | |- context [if ?b then _ else _] => destruct b
  end.
  - destruct (generateHTML _ _ _ w) as [html w1]. exact Hc.
  - destruct (channels_loop_ranked Date_parse client users
                (Object_keys users) [] w (Forall_nil _))
      as (digest & w1 & Hloop & Hd).
    rewrite Hloop.
    destruct (generateHTML _ _ _ w1) as [html w2]. exact Hd.
Qed.

Lemma handler_keeps_cache_ranked_witness :
  cache_ranked empty_cache
  /\ cache_ranked
       (snd (fst (get_root IsoDate.parse Examples.client_scenario CHANNEL_USERS
                    (Some "true") Examples.first_cache
                    Examples.ten_minutes_later))).
Proof.
  split; [exact I|].
  apply (handler_keeps_cache_ranked IsoDate.parse Examples.client_scenario
           CHANNEL_USERS (Some "true") Examples.first_cache
           Examples.ten_minutes_later).
  apply (handler_keeps_cache_ranked IsoDate.parse Examples.client_scenario
           CHANNEL_USERS None empty_cache Examples.w0).
  exact I.
Defined.

(** ** How many provider calls a channel costs *)

Lemma count_events_snoc (kind : Event -> bool) (t : list Event) (ev : Event) :
  count_events kind (t ++ [ev])
  = (count_events kind t + (if kind ev then 1 else 0))%nat.
Proof.
  unfold count_events. rewrite filter_app, length_app. simpl.
  destruct (kind ev); reflexivity.
Qed.

Lemma at_most_refl (w : World) : at_most 0 0 0 w w.
Proof. unfold at_most. lia. Qed.

Lemma at_most_trans (a b c a' b' c' : nat) (w1 w2 w3 : World) :
  at_most a b c w1 w2 -> at_most a' b' c' w2 w3 ->
  at_most (a + a') (b + b') (c + c') w1 w3.
Proof. unfold at_most. lia. Qed.

Lemma at_most_weaken (a b c a' b' c' : nat) (w1 w2 : World) :
  at_most a b c w1 w2 -> (a <= a')%nat -> (b <= b')%nat -> (c <= c')%nat ->
  at_most a' b' c' w1 w2.
Proof. unfold at_most. lia. Qed.

Lemma at_most_call (client : NeynarClient) (ev : Event) (w : World) :
  at_most (if is_lookup ev then 1 else 0) (if is_fetch ev then 1 else 0)
    (if is_delay ev then 1 else 0) w (after_call client ev w).
Proof.
  unfold at_most, after_call. simpl trace. rewrite !count_events_snoc. lia.
Qed.

Lemma at_most_delay (ms : Z) (w : World) : at_most 0 0 1 w (after_delay ms w).
Proof.
  unfold at_most, after_delay. simpl trace. rewrite !count_events_snoc.
  simpl. lia.
Qed.

Section Counting.

Variable client : NeynarClient.

Lemma resolve_fid_at_most (u : UserIdentifier) (w : World) :
  exists o w', resolve_fid client u w = (Ok o, w') /\ at_most 1 0 1 w w'.
Proof.
  destruct u as [n|name]; simpl.
  - exists (Some n), w. split; [reflexivity|].
    apply (at_most_weaken 0 0 0); auto using at_most_refl.
  - destruct (parseInt name) as [n|].
    + exists (Some n), w. split; [reflexivity|].
      apply (at_most_weaken 0 0 0); auto using at_most_refl.
    + run_monad. fold (after_call client (EvLookup name) w).
      pose proof (at_most_call client (EvLookup name) w) as Hc. simpl in Hc.
      destruct (lookupUserByUsername client w name) as [r|e].
      * destruct (negb _).
        -- eexists. eexists. split; [reflexivity|].
           apply (at_most_weaken 1 0 0); auto.
        -- eexists. eexists. split; [reflexivity|].
           fold (after_delay 2000 (after_call client (EvLookup name) w)).
           apply (at_most_trans 1 0 0 0 0 1 _ _ _ Hc), at_most_delay.
      * eexists. eexists. split; [reflexivity|].
        apply (at_most_weaken 1 0 0); auto.
Qed.

Lemma fetch_response_at_most (fid : Z) (w : World) :
  exists o w', fetch_response client fid w = (Ok o, w') /\ at_most 0 1 0 w w'.
Proof.
  destruct (fetch_method client) as [method|] eqn:Hm.
  - rewrite (fetch_response_eq client fid w method Hm).
    eexists. eexists. split; [reflexivity|].
    exact (at_most_call client (EvFetch fid 25) w).
  - unfold fetch_method in Hm. unfold fetch_response.
    destruct (fetchCastsForUser client); [discriminate|]. rewrite Hm.
    run_monad. exists None, w. split; [reflexivity|].
    apply (at_most_weaken 0 0 0); auto using at_most_refl.
Qed.

Lemma process_user_at_most (acc : list CastItem) (u : UserIdentifier) (w : World) :
  exists acc' w',
    process_user client acc u w = (Ok acc', w') /\ at_most 1 1 2 w w'.
Proof.
  unfold process_user.
  destruct (resolve_fid_at_most u w) as (o & w1 & Hr & B1).
  unfold try_catch at 1. unfold bind at 1. rewrite Hr.
  destruct o as [fid|].
  - destruct (fetch_response_at_most fid w1) as (o' & w2 & Hf & B2).
    unfold bind at 1. rewrite Hf.
    pose proof (at_most_trans _ _ _ _ _ _ _ _ _ B1 B2) as B12.
    destruct o' as [r|].
    + run_monad. fold (after_delay 2000 w2).
      eexists. eexists. split; [reflexivity|].
      exact (at_most_trans _ _ _ _ _ _ _ _ _ B12 (at_most_delay 2000 w2)).
    + run_monad. eexists. eexists. split; [reflexivity|].
      apply (at_most_weaken _ _ _ _ _ _ _ _ B12); simpl; lia.
  - run_monad. eexists. eexists. split; [reflexivity|].
    apply (at_most_weaken _ _ _ _ _ _ _ _ B1); lia.
Qed.

Lemma roster_loop_at_most (us : list UserIdentifier) (acc : list CastItem) (w : World) :
  exists acc' w',
    for_of us (process_user client) acc w = (Ok acc', w')
    /\ at_most (List.length us) (List.length us) (2 * List.length us) w w'.
Proof.
  revert acc w. induction us as [|u us IH]; intros acc w.
  - exists acc, w. split; [reflexivity | apply at_most_refl].
  - destruct (process_user_at_most acc u w) as (acc1 & w1 & H1 & B1).
    destruct (IH acc1 w1) as (acc2 & w2 & H2 & B2).
    exists acc2, w2. split.
    + simpl. unfold bind. rewrite H1. exact H2.
    + apply (at_most_weaken _ _ _ _ _ _ _ _
               (at_most_trans _ _ _ _ _ _ _ _ _ B1 B2)); simpl; lia.
Qed.

End Counting.

(** X9. However long the roster and whatever the provider does, the
    aggregation of one channel issues at most 4 cast fetches and at most 4
    user lookups, and waits at most 8 times. *)
Theorem channel_costs_at_most_four_fetches
    (Date_parse : string -> option Z) (client : NeynarClient)
    (users : ChannelUsers) (ch : string) (w : World) :
  at_most 4 4 8 w (snd (fetchChannelCasts Date_parse client users ch w)).
Proof.
  destruct (fetchChannelCasts_eq Date_parse client users ch w)
    as (allCasts & w1 & Hloop & _ & Hres).
  rewrite Hres. simpl snd.
  destruct (roster_loop_at_most client
              (slice0 4 (get_property users ch ||! [])) [] w)
    as (acc' & w' & Hloop' & B).
  rewrite Hloop in Hloop'. injection Hloop' as _ <-.
  pose proof (slice0_length 4 (get_property users ch ||! [])) as Hlen.
  apply (at_most_weaken _ _ _ _ _ _ _ _ B); lia.
Qed.

(** ** The cool-down when the provider answers *)

Lemma Cooled_app (t1 t2 : list Event) : Cooled t1 -> Cooled t2 -> Cooled (t1 ++ t2).
Proof.
  induction 1; intros H2; simpl; auto using Cooled.
Qed.

Section AllUp.

Variable client : NeynarClient.
Hypothesis Hup : never_fails client.

(** With a provider that answers, an author costs a fetch and a delay,
    after a lookup and a delay when the name has to be resolved. *)
Lemma process_user_up (acc : list CastItem) (u : UserIdentifier) (w : World) :
  exists acc' evs w',
    process_user client acc u w = (Ok acc', w')
    /\ trace w' = trace w ++ evs
    /\ Cooled evs
    /\ ((forall w0, 0 <= latency client w0) -> clock w + 2000 <= clock w').
Proof.
  destruct Hup as [(method & Hm & Hfetch) Hlookup].
  assert (Hstatic : forall fid, static_fid u = Some fid ->
    exists acc' evs w',
      process_user client acc u w = (Ok acc', w')
      /\ trace w' = trace w ++ evs /\ Cooled evs
      /\ ((forall w0, 0 <= latency client w0) -> clock w + 2000 <= clock w')).
  { intros fid Hs.
    rewrite (process_user_static client acc u fid w method Hs Hm).
    destruct (Hfetch w fid) as (r & ->).
    eexists. exists [EvFetch fid 25; EvDelay 2000]. eexists.
    split; [reflexivity|]. split; [|split].
    - unfold after_delay, after_call. simpl trace. now rewrite <- app_assoc.
    - repeat constructor.
    - intros Hl. unfold after_delay, after_call. simpl clock.
      specialize (Hl w). lia. }
  destruct u as [n|name]; [now apply (Hstatic n)|].
  destruct (parseInt name) as [n|] eqn:Hp; [now apply (Hstatic n)|].
  clear Hstatic.
  destruct (Hlookup w name) as (r & fid & Hl & Hfid & Hnz).
  set (w1 := after_delay 2000 (after_call client (EvLookup name) w)).
  unfold process_user. unfold try_catch at 1. unfold bind at 1.
  rewrite (resolve_fid_lookup client name w r fid Hp Hl Hfid Hnz). fold w1.
  unfold bind at 1. rewrite (fetch_response_eq client fid w1 method Hm).
  destruct (Hfetch w1 fid) as (r' & ->).
  run_monad.
  eexists. exists [EvLookup name; EvDelay 2000; EvFetch fid 25; EvDelay 2000].
  eexists. split; [reflexivity|]. split; [|split].
  - unfold w1, after_delay, after_call. simpl trace.
    now rewrite <- !app_assoc.
  - repeat constructor.
  - intros Hlat. unfold w1, after_delay, after_call. simpl clock.
    pose proof (Hlat w).
    pose proof (Hlat {| clock := clock w + latency client w + 2000;
                        trace := (trace w ++ [EvLookup name]) ++ [EvDelay 2000] |}).
    lia.
Qed.

Lemma roster_loop_up (us : list UserIdentifier) (acc : list CastItem) (w : World) :
  exists acc' evs w',
    for_of us (process_user client) acc w = (Ok acc', w')
    /\ trace w' = trace w ++ evs
    /\ Cooled evs
    /\ ((forall w0, 0 <= latency client w0) ->
        clock w + 2000 * Z.of_nat (List.length us) <= clock w').
Proof.
  revert acc w. induction us as [|u us IH]; intros acc w.
  - exists acc, [], w. simpl. rewrite app_nil_r.
    repeat split; auto using Cooled. intros _. lia.
  - destruct (process_user_up acc u w) as (acc1 & e1 & w1 & H1 & T1 & C1 & L1).
    destruct (IH acc1 w1) as (acc2 & e2 & w2 & H2 & T2 & C2 & L2).
    exists acc2, (e1 ++ e2), w2. split; [|split; [|split]].
    + simpl. unfold bind. rewrite H1. exact H2.
    + rewrite T2, T1. now rewrite app_assoc.
    + now apply Cooled_app.
    + intros Hlat. specialize (L1 Hlat). specialize (L2 Hlat).
      rewrite length_cons, Nat2Z.inj_succ. lia.
Qed.

End AllUp.

(** X10. When the provider answers every lookup and every fetch, the events
    of a channel aggregation are cooled down: each provider call is followed
    at once by a delay of 2000 ms, so no two calls are issued back to
    back. *)
Theorem calls_are_cooled_when_provider_answers
    (Date_parse : string -> option Z) (client : NeynarClient)
    (users : ChannelUsers) (ch : string) (w : World) :
  never_fails client ->
  exists evs,
    trace (snd (fetchChannelCasts Date_parse client users ch w)) = trace w ++ evs
    /\ Cooled evs.
Proof.
  intros Hup.
  destruct (fetchChannelCasts_eq Date_parse client users ch w)
    as (allCasts & w1 & Hloop & _ & Hres).
  destruct (roster_loop_up client Hup
              (slice0 4 (get_property users ch ||! [])) [] w)
    as (acc' & evs & w' & Hloop' & Ht & Hc & _).
  rewrite Hloop in Hloop'. injection Hloop' as _ <-.
  rewrite Hres. exists evs. auto.
Qed.

Lemma client_all_up_never_fails : never_fails MoreExamples.client_all_up.
Proof.
  split.
  - eexists. split; [reflexivity|]. intros w fid. eexists. reflexivity.
  - intros w name. eexists. eexists. split; [reflexivity|].
    split; [reflexivity|]. lia.
Defined.

Lemma calls_are_cooled_when_provider_answers_witness :
  exists evs,
    trace (snd (fetchChannelCasts IsoDate.parse MoreExamples.client_all_up
                  MoreExamples.crowded "/crowd" Examples.w0))
    = trace Examples.w0 ++ evs
    /\ Cooled evs.
Proof.
  apply (calls_are_cooled_when_provider_answers IsoDate.parse
           MoreExamples.client_all_up MoreExamples.crowded "/crowd" Examples.w0).
  exact client_all_up_never_fails.
Defined.

(** X11. When the provider answers and its calls take no negative time, the
    aggregation of a channel lasts at least 2000 ms for each author of the
    roster, of which it takes the first four. *)
Theorem channel_lasts_two_seconds_per_author
    (Date_parse : string -> option Z) (client : NeynarClient)
    (users : ChannelUsers) (ch : string) (w : World) :
  never_fails client ->
  (forall w0, 0 <= latency client w0) ->
  clock w
  + 2000 * Z.of_nat (Nat.min 4 (List.length (get_property users ch ||! [])))
  <= clock (snd (fetchChannelCasts Date_parse client users ch w)).
Proof.
  intros Hup Hlat.
  destruct (fetchChannelCasts_eq Date_parse client users ch w)
    as (allCasts & w1 & Hloop & _ & Hres).
  destruct (roster_loop_up client Hup
              (slice0 4 (get_property users ch ||! [])) [] w)
    as (acc' & evs & w' & Hloop' & _ & _ & Hclock).
  rewrite Hloop in Hloop'. injection Hloop' as _ <-.
  rewrite Hres. simpl snd. specialize (Hclock Hlat).
  unfold slice0 in Hclock. rewrite length_firstn in Hclock. exact Hclock.
Qed.

Lemma channel_lasts_two_seconds_per_author_witness :
  clock Examples.w0 + 2000 * Z.of_nat (Nat.min 4 5)
  <= clock (snd (fetchChannelCasts IsoDate.parse MoreExamples.client_all_up
                   MoreExamples.crowded "/crowd" Examples.w0)).
Proof.
  apply (channel_lasts_two_seconds_per_author IsoDate.parse
           MoreExamples.client_all_up MoreExamples.crowded "/crowd" Examples.w0).
  - exact client_all_up_never_fails.
  - intros w0. simpl. lia.
Defined.

(** X12. With a provider whose answer to a fetch depends on the fid alone,
    the casts collected for a roster of fids are the answers put end to end
    in roster order, a rejected fetch counting for nothing. *)
Theorem casts_are_collected_in_roster_order
    (client : NeynarClient) method (answer : Z -> Result CastsResponse)
    (ids : list Z) (acc : list CastItem) (w : World) :
  fetch_method client = Some method ->
  (forall w0 fid, method w0 fid 25 = answer fid) ->
  fst (for_of (map UNumber ids) (process_user client) acc w)
  = Ok (acc ++ flat_map (fun fid => contribution (answer fid)) ids).
Proof.
  intros Hm Hans. revert acc w.
  induction ids as [|fid ids IH]; intros acc w; simpl.
  - now rewrite app_nil_r.
  - unfold bind.
    rewrite (process_user_static client acc (UNumber fid) fid w method eq_refl Hm).
    rewrite Hans.
    destruct (answer fid) as [r|e]; simpl contribution; rewrite IH.
    + now rewrite <- app_assoc.
    + reflexivity.
Qed.

Lemma casts_are_collected_in_roster_order_witness :
  fst (for_of (map UNumber [1325; 15983; 99])
         (process_user Examples.client_one_down) [] Examples.w0)
  = Ok ([] ++ flat_map
                (fun fid =>
                   contribution
                     (if (fid =? 1325) || (fid =? 3621)
                      then Throw Examples.rate_limited
                      else Ok (Examples.response
                                 [Some (Examples.post (Examples.user "someone" fid)
                                          "hello" 2 1 0 Examples.yesterday)])))
                [1325; 15983; 99]).
Proof.
  apply (casts_are_collected_in_roster_order Examples.client_one_down
           (fun _ fid _ =>
              if (fid =? 1325) || (fid =? 3621) then Throw Examples.rate_limited
              else Ok (Examples.response
                         [Some (Examples.post (Examples.user "someone" fid)
                                  "hello" 2 1 0 Examples.yesterday)]))).
  - reflexivity.
  - reflexivity.
Defined.

(** ** When the cache is not served *)

(** X13. A call finds no cache to serve when the cache holds no digest, no
    timestamp, or a timestamp that is 30 minutes old or more (30 minutes
    sharp included): it then does exactly what a call with [refresh=true]
    does, whatever its own [refresh] parameter. *)
Theorem stale_cache_is_rebuilt
    (Date_parse : string -> option Z) (client : NeynarClient)
    (users : ChannelUsers) (refresh : option string) (cache : Cache) (w : World) :
  (cache_data cache = None
   \/ cache_timestamp cache = None
   \/ exists t, cache_timestamp cache = Some t /\ CACHE_DURATION <= clock w - t) ->
  get_root Date_parse client users refresh cache w
  = get_root Date_parse client users (Some "true") cache w.
Proof.
  intros Hstale.
  destruct (channels_loop_total Date_parse client users (Object_keys users) [] w)
    as (digest & w' & Hloop & _).
  simpl app in Hloop.
  rewrite (get_root_miss Date_parse client users (Some "true") cache w
             (or_introl eq_refl) digest w' Hloop).
  apply get_root_miss; [|exact Hloop].
  right. destruct Hstale as [H | [H | H]].
  - left. now rewrite H.
  - right. left. now rewrite H.
  - right. right. exact H.
Qed.

Lemma stale_cache_is_rebuilt_witness :
  let at_thirty_minutes :=
    {| clock := 1735862414840 + 30 * 60 * 1000;
       trace := trace (snd Examples.first_call) |} in
  get_root IsoDate.parse Examples.client_scenario CHANNEL_USERS None
    Examples.first_cache at_thirty_minutes
  = get_root IsoDate.parse Examples.client_scenario CHANNEL_USERS (Some "true")
      Examples.first_cache at_thirty_minutes.
Proof.
  apply (stale_cache_is_rebuilt IsoDate.parse Examples.client_scenario
           CHANNEL_USERS None Examples.first_cache).
  right. right. exists 1735862414840. split.
  - vm_compute. reflexivity.
  - vm_compute. discriminate.
Defined.

(** ** Roster entries written as strings *)

Lemma parse_digits_uint (d : Decimal.uint) (a : Z) :
  parse_digits 10 (Some a) (NilEmpty.string_of_uint d) = Some (uint_value a d).
Proof.
  revert a. induction d; intros a; simpl; try reflexivity; apply IHd.
Qed.

Lemma parse_digits_some (s : string) (a : Z) :
  exists n, parse_digits 10 (Some a) s = Some n.
Proof.
  revert a. induction s as [|c s IH]; intros a; simpl; [eauto|].
  destruct (digit_value 10 c); eauto.
Qed.

Lemma of_uint_cons (k : N) (d : Decimal.uint) (digit : Decimal.uint -> Decimal.uint) :
  (forall d', Decimal.revapp (digit d) d' = Decimal.revapp d (digit d')) ->
  DecimalPos.Unsigned.of_lu (digit Decimal.Nil) = k ->
  Pos.of_uint (digit d)
  = (Pos.of_uint d + k * 10 ^ DecimalPos.Unsigned.usize d)%N.
Proof.
  intros Hrev Hk.
  rewrite !DecimalPos.Unsigned.of_uint_alt. unfold Decimal.rev.
  rewrite Hrev, DecimalPos.Unsigned.of_lu_revapp, Hk. reflexivity.
Qed.

Lemma uint_value_spec (d : Decimal.uint) (a : Z) :
  uint_value a d
  = a * 10 ^ Z.of_N (DecimalPos.Unsigned.usize d) + Z.of_N (Pos.of_uint d).
Proof.
  revert a.
  induction d; intros a;
    [ simpl; lia
    | rewrite (of_uint_cons 0 d Decimal.D0) by reflexivity
    | rewrite (of_uint_cons 1 d Decimal.D1) by reflexivity
    | rewrite (of_uint_cons 2 d Decimal.D2) by reflexivity
    | rewrite (of_uint_cons 3 d Decimal.D3) by reflexivity
    | rewrite (of_uint_cons 4 d Decimal.D4) by reflexivity
    | rewrite (of_uint_cons 5 d Decimal.D5) by reflexivity
    | rewrite (of_uint_cons 6 d Decimal.D6) by reflexivity
    | rewrite (of_uint_cons 7 d Decimal.D7) by reflexivity
    | rewrite (of_uint_cons 8 d Decimal.D8) by reflexivity
    | rewrite (of_uint_cons 9 d Decimal.D9) by reflexivity ];
    cbn [uint_value DecimalPos.Unsigned.usize]; rewrite IHd;
    rewrite N2Z.inj_add, N2Z.inj_mul, N2Z.inj_pow, N2Z.inj_succ;
    rewrite Z.pow_succ_r by apply N2Z.is_nonneg;
    change (Z.of_N 10) with 10; simpl Z.of_N; ring.
Qed.

(** [parseInt] of a decimal numeral, with or without a minus sign. *)
Lemma parseInt_numeral (d : Decimal.uint) :
  d <> Decimal.Nil ->
  parseInt (NilEmpty.string_of_uint d) = Some (uint_value 0 d)
  /\ parseInt (String "-" (NilEmpty.string_of_uint d)) = Some (- uint_value 0 d).
Proof.
  intros Hd.
  assert (Hneg : forall v : Z, -1 * v = - v) by (intros; lia).
  assert (Hpos : forall v : Z, 1 * v = v) by (intros; lia).
  destruct d as [|d|d|d|d|d|d|d|d|d|d]; [contradiction|..];
    try (unfold parseInt; cbn [NilEmpty.string_of_uint skip_whitespace is_whitespace];
         simpl; rewrite parse_digits_uint; cbn [option_map];
         rewrite ?Hneg, ?Hpos; split; reflexivity).
  destruct d as [|d|d|d|d|d|d|d|d|d|d];
    unfold parseInt; simpl; rewrite ?parse_digits_uint; cbn [option_map];
    rewrite ?Hneg, ?Hpos; split; reflexivity.
Qed.

Lemma parseInt_Number_toString (n : Z) : parseInt (Number_toString n) = Some n.
Proof.
  unfold Number_toString.
  assert (Hnz : forall p, Pos.to_uint p <> Decimal.Nil).
  { intros p E. pose proof (DecimalPos.Unsigned.of_to p) as H.
    rewrite E in H. discriminate. }
  assert (Hval : forall p, uint_value 0 (Pos.to_uint p) = Z.pos p).
  { intros p. rewrite uint_value_spec, DecimalPos.Unsigned.of_to. simpl. lia. }
  destruct n as [|p|p]; [reflexivity|..]; simpl Z.to_int;
    unfold NilZero.string_of_int, NilZero.string_of_uint;
    destruct (parseInt_numeral (Pos.to_uint p) (Hnz p)) as [H1 H2];
    destruct (Pos.to_uint p) eqn:E; try (now destruct (Hnz p));
    rewrite <- E in *; rewrite ?H1, ?H2, Hval; reflexivity.
Qed.

(** X15. A roster entry that is the decimal string of a fid is handled
    exactly as the number itself: [parseInt] gives the fid back and no
    lookup is made. *)
Theorem numeric_string_is_the_fid
    (client : NeynarClient) (acc : list CastItem) (n : Z) (w : World) :
  parseInt (Number_toString n) = Some n
  /\ process_user client acc (UString (Number_toString n)) w
     = process_user client acc (UNumber n) w.
Proof.
  pose proof (parseInt_Number_toString n) as Hp.
  split; [exact Hp|].
  unfold process_user. simpl resolve_fid. rewrite Hp. reflexivity.
Qed.

(** X16. A user name that starts with a digit from 1 to 9 is never looked
    up: [parseInt] reads the digits it starts with, and the entry is handled
    as that fid. *)
Theorem name_starting_with_digit_is_a_fid (c : ascii) (rest : string) :
  (49 <= nat_of_ascii c <= 57)%nat ->
  exists n,
    parseInt (String c rest) = Some n
    /\ forall (client : NeynarClient) (acc : list CastItem) (w : World),
         process_user client acc (UString (String c rest)) w
         = process_user client acc (UNumber n) w.
Proof.
  intros Hc.
  assert (Hp : exists n, parseInt (String c rest) = Some n).
  { destruct c as [[] [] [] [] [] [] [] []];
      try (exfalso; cbv in Hc; lia);
      unfold parseInt; simpl;
      match goal with
      | |- context [parse_digits 10 (Some ?a) rest] =>
          destruct (parse_digits_some rest a) as (v & ->); eexists; reflexivity
      end. }
  destruct Hp as (n & Hp). exists n. split; [exact Hp|].
  intros client acc w. unfold process_user. simpl resolve_fid. rewrite Hp.
  reflexivity.
Qed.

Lemma name_starting_with_digit_is_a_fid_witness :
  exists n,
    parseInt "3dwr" = Some n
    /\ forall (client : NeynarClient) (acc : list CastItem) (w : World),
         process_user client acc (UString "3dwr") w
         = process_user client acc (UNumber n) w.
Proof.
  apply (name_starting_with_digit_is_a_fid "3" "dwr"). cbv. lia.
Defined.

(** X17. A user name that starts with a letter is not a number for
    [parseInt], so the first thing done for it is the lookup of the name. *)
Theorem name_starting_with_letter_is_looked_up
    (client : NeynarClient) (c : ascii) (rest : string) (w : World) :
  (65 <= nat_of_ascii c <= 90 \/ 97 <= nat_of_ascii c <= 122)%nat ->
  parseInt (String c rest) = None
  /\ exists tail,
       trace (snd (resolve_fid client (UString (String c rest)) w))
       = trace w ++ EvLookup (String c rest) :: tail.
Proof.
  intros Hc.
  assert (Hp : parseInt (String c rest) = None).
  { destruct c as [[] [] [] [] [] [] [] []];
      try (exfalso; cbv in Hc; lia); reflexivity. }
  split; [exact Hp|].
  simpl resolve_fid. rewrite Hp. run_monad.
  destruct (lookupUserByUsername client w (String c rest)) as [r|e].
  - destruct (negb _); simpl.
    + exists []. reflexivity.
    + exists [EvDelay 2000]. now rewrite <- app_assoc.
  - exists []. reflexivity.
Qed.

Lemma name_starting_with_letter_is_looked_up_witness :
  parseInt "ghost" = None
  /\ exists tail,
       trace (snd (resolve_fid Examples.client_one_down (UString "ghost")
                     Examples.w0))
       = trace Examples.w0 ++ EvLookup "ghost" :: tail.
Proof.
  apply (name_starting_with_letter_is_looked_up Examples.client_one_down
           "g" "host" Examples.w0).
  right. cbv. lia.
Defined.

(** ** When the page cannot be built *)

Lemma render_casts_ok (records : list CastRecord) :
  (exists texts, render_casts records = Ok texts)
  <-> Forall (fun record => text record <> None) records.
Proof.
  induction records as [|r records IH]; simpl.
  - split; [constructor | eauto].
  - destruct (text r) as [s|] eqn:Ht; simpl.
    + destruct (render_casts records) as [others|e].
      * split; [|eauto]. intros _. constructor; [congruence|].
        apply IH. eauto.
      * split.
        -- intros (texts & H). discriminate.
        -- intros H. apply Forall_inv_tail in H. apply IH in H.
           destruct H as (texts & H). discriminate.
    + split.
      * intros (texts & H). discriminate.
      * intros H. apply Forall_inv in H. congruence.
Qed.

Lemma render_entry_ok (entry : Entry) :
  (exists texts, render_entry entry = Ok texts) <-> entry_renderable entry.
Proof.
  unfold render_entry, entry_renderable.
  destruct (truthy (error entry)).
  - split; [now left | eauto].
  - rewrite render_casts_ok. split; [now right|].
    intros [H|H]; [discriminate | exact H].
Qed.

(** X18. The sections of the page can be built exactly when every entry
    either shows an error or has a text for each of its casts; otherwise
    building the page throws. When they can be built, there is one section
    per entry. *)
Theorem page_is_built_iff_texts_present (digest : Digest) :
  ((exists texts, render_digest digest = Ok texts)
   <-> Forall entry_renderable digest)
  /\ (forall texts,
        render_digest digest = Ok texts ->
        List.length texts = List.length digest).
Proof.
  induction digest as [|entry digest [IH IHlen]]; simpl.
  - split; [split; [constructor | eauto] | now intros texts [= <-]].
  - pose proof (render_entry_ok entry) as He.
    destruct (render_entry entry) as [section|e].
    + destruct (render_digest digest) as [others|e].
      * split.
        -- split; [|eauto]. intros _. constructor; [apply He; eauto|].
           apply IH. eauto.
        -- intros texts [= <-]. simpl. f_equal. now apply IHlen.
      * split; [|discriminate]. split.
        -- intros (texts & H). discriminate.
        -- intros H. apply Forall_inv_tail in H. apply IH in H.
           destruct H as (texts & H). discriminate.
    + split; [|discriminate]. split.
      * intros (texts & H). discriminate.
      * intros H. apply Forall_inv in H. apply He in H.
        destruct H as (texts & H). discriminate.
Qed.

Lemma page_is_built_iff_texts_present_witness :
  Forall entry_renderable
    [{| channel := "/higher";
        casts := [to_record Examples.legacy_post];
        error := None |}]
  /\ List.length [[escape_string "gm"]] = 1%nat.
Proof.
  split.
  - apply (proj1 (page_is_built_iff_texts_present _)).
    eexists. reflexivity.
  - apply (proj2 (page_is_built_iff_texts_present
                    [{| channel := "/higher";
                        casts := [to_record Examples.legacy_post];
                        error := None |}])).
    reflexivity.
Defined.

(** X19. The handler assigns the cache before it builds the page: when a
    pass produces a digest whose page cannot be built, the call throws and
    the cache nevertheless holds that digest and the instant of the
    pass. *)
Theorem cache_is_overwritten_before_page_is_built
    (Date_parse : string -> option Z) (client : NeynarClient)
    (users : ChannelUsers) (cache : Cache) (w : World)
    (digest : Digest) (w' : World) (e : Exn) :
  for_of (Object_keys users) (process_channel Date_parse client users) [] w
  = (Ok digest, w') ->
  render_digest digest = Throw e ->
  get_root Date_parse client users (Some "true") cache w
  = (Throw e,
     {| cache_data := Some digest; cache_timestamp := Some (clock w') |},
     w').
Proof.
  intros Hloop Hrender.
  rewrite (get_root_miss Date_parse client users (Some "true") cache w
             (or_introl eq_refl) digest w' Hloop).
  now rewrite Hrender.
Qed.

Lemma cache_is_overwritten_before_page_is_built_witness :
  exists digest w',
    get_root IsoDate.parse MoreExamples.client_textless CHANNEL_USERS
      (Some "true") empty_cache Examples.w0
    = (Throw (TypeError_undefined "replace"),
       {| cache_data := Some digest; cache_timestamp := Some (clock w') |},
       w').
Proof.
  eexists. eexists.
  apply (cache_is_overwritten_before_page_is_built IsoDate.parse
           MoreExamples.client_textless CHANNEL_USERS empty_cache Examples.w0).
  - vm_compute. reflexivity.
  - vm_compute. reflexivity.
Defined.

(** ** Ageing out of the window *)

(** X20. A cast only ever ages out of the window: if the filter keeps it at
    some instant, it keeps it at every earlier instant too (both windows
    starting at a valid date). *)
Theorem kept_cast_was_kept_before
    (Date_parse : string -> option Z) (earlier later : Z) (cast : Cast) :
  earlier <= later ->
  Z.abs (earlier - 172800000) <= 8640000000000000 ->
  Z.abs (later - 172800000) <= 8640000000000000 ->
  in_window Date_parse (TimeClip (later - 48 * 60 * 60 * 1000)) cast = true ->
  in_window Date_parse (TimeClip (earlier - 48 * 60 * 60 * 1000)) cast = true.
Proof.
  intros Hle Hv1 Hv2.
  change (48 * 60 * 60 * 1000) with 172800000.
  rewrite !in_window_spec by assumption.
  intros (t & Ht & Hlater). exists t. split; [exact Ht | lia].
Qed.

Lemma kept_cast_was_kept_before_witness :
  in_window IsoDate.parse
    (TimeClip (1735862400000 - 3600000 - 48 * 60 * 60 * 1000))
    Examples.legacy_post = true.
Proof.
  apply (kept_cast_was_kept_before IsoDate.parse
           (1735862400000 - 3600000) 1735862400000 Examples.legacy_post).
  - lia.
  - vm_compute. discriminate.
  - vm_compute. discriminate.
  - reflexivity.
Defined.
